(** * VoiceAI: a shallow embedding of [src/components/VoiceAI.tsx]

    The component is a React function component with three collaborator
    classes ([MockWhisperWorker], [MockTTSEngine], [OpenAIClient]).  The
    embedding keeps the component's state, its refs and the part of the
    browser the code talks to (wall clock, [Math.random], [fetch], locale
    formatting, [alert], [console.error]) in one record, [World], and writes
    every function of the source as a computation in a state-and-exception
    monad over it.

    Conventions.
    - A JavaScript string is a [string] of code units below 256.
    - [await] is sequencing: a run of [handleTranscript] is followed from
      entry to exit with no other handler interleaved.
    - Values captured by a closure at render time (a [useCallback] or
      [useEffect] body reads the state of the render that created it) are
      passed in a [Render] snapshot; refs and functional state updates
      ([setMessages(prev => ...)]) act on the live [World]. *)

From Stdlib Require Import ZArith List String Ascii Bool Lia DecimalString.
Import ListNotations.

#[local] Open Scope Z_scope.
#[local] Open Scope string_scope.

(** ** JavaScript strings *)

Module JsString.

(** [String.prototype.toLowerCase] on one code unit below 256: the ASCII
    capitals and the Latin-1 capitals (all of 192..222 but the
    multiplication sign 215) move up by 32. *)
Definition toLowerChar (c : ascii) : ascii :=
  let n := N_of_ascii c in
  if ((65 <=? n) && (n <=? 90)
      || (192 <=? n) && (n <=? 222) && negb (n =? 215))%N
  then ascii_of_N (n + 32) else c.

Fixpoint toLowerCase (s : string) : string :=
  match s with
  | EmptyString => EmptyString
  | String c r => String (toLowerChar c) (toLowerCase r)
  end.

(** [s.includes(k)]: [k] occurs in [s] at some offset. *)
Fixpoint includes (s k : string) : bool :=
  String.prefix k s
  || match s with
     | EmptyString => false
     | String _ r => includes r k
     end.

(** White space and line terminators below 256, as [trim] strips them. *)
Definition isWhiteSpace (c : ascii) : bool :=
  let n := N_of_ascii c in
  ((9 <=? n) && (n <=? 13) || (n =? 32) || (n =? 160))%N.

Fixpoint trimStart (s : string) : string :=
  match s with
  | EmptyString => EmptyString
  | String c r => if isWhiteSpace c then trimStart r else s
  end.

Fixpoint trimEnd (s : string) : string :=
  match s with
  | EmptyString => EmptyString
  | String c r =>
      match trimEnd r with
      | EmptyString => if isWhiteSpace c then EmptyString
                       else String c EmptyString
      | r' => String c r'
      end
  end.

Definition trim (s : string) : string := trimEnd (trimStart s).

(** Truthiness of a string: every string but the empty one. *)
Definition truthy (s : string) : bool :=
  match s with EmptyString => false | String _ _ => true end.

(** Every code unit of [s] is white space. *)
Fixpoint blank (s : string) : bool :=
  match s with
  | EmptyString => true
  | String c r => isWhiteSpace c && blank r
  end.

End JsString.
Import JsString.

(** ** Types of the source *)

Inductive Role := user | assistant.

(** [timestamp] is the reading of the clock that [new Date()] took, in
    milliseconds. *)
Record Message := {
  role : Role;
  content : string;
  timestamp : Z
}.

Record PerformanceMetrics := {
  sttLatency : Z;
  apiLatency : Z;
  ttsLatency : Z;
  totalLatency : Z;
  playbackStart : Z
}.

(** A recorded [Blob]; its bytes are never inspected. *)
Inductive Blob := blob (id : nat).

Inductive MessageType := load | transcribe | model_loaded | transcript | error.

Record WhisperWorkerMessage := {
  type : MessageType;
  audio : option Blob;
  text : option string;
  errorText : option string;
  latency : option Z
}.

(** A function installed in the worker's [onmessage] slot.  The component
    never installs one, so a callback is known by identity only and a call
    to it is recorded in the trace. *)
Inductive Callback := callback (id : nat).

(** Fields of [class MockWhisperWorker]; [ww_timers] holds the
    [(startTime, delay)] of every pending [setTimeout] of [postMessage]. *)
Record WhisperWorkerObj := {
  ww_isLoaded : bool;
  ww_onmessage : option Callback;
  ww_timers : list (Z * Z)
}.

Inductive AudioContext := audioContext.

(** [createBuffer(numberOfChannels, length, sampleRate)]. *)
Record AudioBuffer := {
  numberOfChannels : Z;
  frames : Z;
  sampleRate : Z
}.

(** Fields of [class MockTTSEngine]. *)
Record TTSEngineObj := {
  tts_isLoaded : bool;
  tts_audioContext : option AudioContext
}.

(** Fields of [class OpenAIClient]. *)
Record OpenAIClientObj := {
  client_apiKey : string
}.

(** The request [chatCompletion] hands to [fetch]; the temperature 0.7 is
    kept in tenths. *)
Record Request := {
  url : string;
  authorization : string;
  model : string;
  req_messages : list (Role * string);
  max_tokens : Z;
  temperature_tenths : Z
}.

(** What the remote end does with a request: the transport fails, or a
    response with a status arrives whose body either is not JSON or is a
    JSON object.  [choices] is [None] when the object has no such array;
    an element is [None] when it has no [message], [Some None] when the
    message has no [content]. *)
Inductive Body :=
| NotJson
| Json (choices : option (list (option (option string)))).

Inductive FetchOutcome :=
| TransportFailure
| HttpResponse (status : Z) (body : Body).

(** What the component and its collaborators do to the outside, and the
    history of the two displayed states the properties speak about. *)
Inductive Event :=
| Fetched (req : Request)
| Alerted (msg : string)
| ConsoleError (msg : string)
| StatusShown (s : string)
| PlayingShown (b : bool)
| OnMessage (cb : Callback) (data : WhisperWorkerMessage)
| StartRecordingCalled
| StopRecordingCalled
| AudioStarted (buffer : AudioBuffer).

(** ** The world *)

Record World := {
  (* useState of VoiceAI *)
  messages : list Message;
  isProcessing : bool;
  apiKey : string;
  isOnline : bool;
  performanceMetrics : option PerformanceMetrics;
  isModelLoaded : bool;
  isTTSLoaded : bool;
  isPlaying : bool;
  currentStatus : string;
  (* useState of useAudioRecorder *)
  isRecording : bool;
  audioBlob : option Blob;
  (* useRef of VoiceAI *)
  whisperWorkerRef : option WhisperWorkerObj;
  ttsEngineRef : option TTSEngineObj;
  openaiClientRef : option OpenAIClientObj;
  (* the browser: [ticks n] is the time that passes before the n-th coming
     reading of the clock, [randoms n] the numerator over 2^53 of the n-th
     coming [Math.random()] *)
  clock : Z;
  ticks : nat -> Z;
  randoms : nat -> Z;
  server : Request -> FetchOutcome;
  toLocaleTimeString : Z -> string;
  toLocaleDateString : Z -> string;
  trace : list Event
}.

Definition with_messages (v : list Message) (w : World) : World :=
  Build_World v (isProcessing w) (apiKey w) (isOnline w)
    (performanceMetrics w) (isModelLoaded w) (isTTSLoaded w) (isPlaying w)
    (currentStatus w) (isRecording w) (audioBlob w) (whisperWorkerRef w)
    (ttsEngineRef w) (openaiClientRef w) (clock w) (ticks w) (randoms w)
    (server w) (toLocaleTimeString w) (toLocaleDateString w) (trace w).

Definition with_isProcessing (v : bool) (w : World) : World :=
  Build_World (messages w) v (apiKey w) (isOnline w) (performanceMetrics w)
    (isModelLoaded w) (isTTSLoaded w) (isPlaying w) (currentStatus w)
    (isRecording w) (audioBlob w) (whisperWorkerRef w) (ttsEngineRef w)
    (openaiClientRef w) (clock w) (ticks w) (randoms w) (server w)
    (toLocaleTimeString w) (toLocaleDateString w) (trace w).

Definition with_apiKey (v : string) (w : World) : World :=
  Build_World (messages w) (isProcessing w) v (isOnline w)
    (performanceMetrics w) (isModelLoaded w) (isTTSLoaded w) (isPlaying w)
    (currentStatus w) (isRecording w) (audioBlob w) (whisperWorkerRef w)
    (ttsEngineRef w) (openaiClientRef w) (clock w) (ticks w) (randoms w)
    (server w) (toLocaleTimeString w) (toLocaleDateString w) (trace w).

Definition with_performanceMetrics (v : option PerformanceMetrics) (w : World) : World :=
  Build_World (messages w) (isProcessing w) (apiKey w) (isOnline w) v
    (isModelLoaded w) (isTTSLoaded w) (isPlaying w) (currentStatus w)
    (isRecording w) (audioBlob w) (whisperWorkerRef w) (ttsEngineRef w)
    (openaiClientRef w) (clock w) (ticks w) (randoms w) (server w)
    (toLocaleTimeString w) (toLocaleDateString w) (trace w).

Definition with_isPlaying (v : bool) (w : World) : World :=
  Build_World (messages w) (isProcessing w) (apiKey w) (isOnline w)
    (performanceMetrics w) (isModelLoaded w) (isTTSLoaded w) v
    (currentStatus w) (isRecording w) (audioBlob w) (whisperWorkerRef w)
    (ttsEngineRef w) (openaiClientRef w) (clock w) (ticks w) (randoms w)
    (server w) (toLocaleTimeString w) (toLocaleDateString w) (trace w).

Definition with_currentStatus (v : string) (w : World) : World :=
  Build_World (messages w) (isProcessing w) (apiKey w) (isOnline w)
    (performanceMetrics w) (isModelLoaded w) (isTTSLoaded w) (isPlaying w) v
    (isRecording w) (audioBlob w) (whisperWorkerRef w) (ttsEngineRef w)
    (openaiClientRef w) (clock w) (ticks w) (randoms w) (server w)
    (toLocaleTimeString w) (toLocaleDateString w) (trace w).

Definition with_audioBlob (v : option Blob) (w : World) : World :=
  Build_World (messages w) (isProcessing w) (apiKey w) (isOnline w)
    (performanceMetrics w) (isModelLoaded w) (isTTSLoaded w) (isPlaying w)
    (currentStatus w) (isRecording w) v (whisperWorkerRef w) (ttsEngineRef w)
    (openaiClientRef w) (clock w) (ticks w) (randoms w) (server w)
    (toLocaleTimeString w) (toLocaleDateString w) (trace w).

Definition with_whisperWorkerRef (v : option WhisperWorkerObj) (w : World) : World :=
  Build_World (messages w) (isProcessing w) (apiKey w) (isOnline w)
    (performanceMetrics w) (isModelLoaded w) (isTTSLoaded w) (isPlaying w)
    (currentStatus w) (isRecording w) (audioBlob w) v (ttsEngineRef w)
    (openaiClientRef w) (clock w) (ticks w) (randoms w) (server w)
    (toLocaleTimeString w) (toLocaleDateString w) (trace w).

Definition with_ttsEngineRef (v : option TTSEngineObj) (w : World) : World :=
  Build_World (messages w) (isProcessing w) (apiKey w) (isOnline w)
    (performanceMetrics w) (isModelLoaded w) (isTTSLoaded w) (isPlaying w)
    (currentStatus w) (isRecording w) (audioBlob w) (whisperWorkerRef w) v
    (openaiClientRef w) (clock w) (ticks w) (randoms w) (server w)
    (toLocaleTimeString w) (toLocaleDateString w) (trace w).

Definition with_openaiClientRef (v : option OpenAIClientObj) (w : World) : World :=
  Build_World (messages w) (isProcessing w) (apiKey w) (isOnline w)
    (performanceMetrics w) (isModelLoaded w) (isTTSLoaded w) (isPlaying w)
    (currentStatus w) (isRecording w) (audioBlob w) (whisperWorkerRef w)
    (ttsEngineRef w) v (clock w) (ticks w) (randoms w) (server w)
    (toLocaleTimeString w) (toLocaleDateString w) (trace w).

Definition with_clock (v : Z) (w : World) : World :=
  Build_World (messages w) (isProcessing w) (apiKey w) (isOnline w)
    (performanceMetrics w) (isModelLoaded w) (isTTSLoaded w) (isPlaying w)
    (currentStatus w) (isRecording w) (audioBlob w) (whisperWorkerRef w)
    (ttsEngineRef w) (openaiClientRef w) v (ticks w) (randoms w) (server w)
    (toLocaleTimeString w) (toLocaleDateString w) (trace w).

Definition with_ticks (v : nat -> Z) (w : World) : World :=
  Build_World (messages w) (isProcessing w) (apiKey w) (isOnline w)
    (performanceMetrics w) (isModelLoaded w) (isTTSLoaded w) (isPlaying w)
    (currentStatus w) (isRecording w) (audioBlob w) (whisperWorkerRef w)
    (ttsEngineRef w) (openaiClientRef w) (clock w) v (randoms w) (server w)
    (toLocaleTimeString w) (toLocaleDateString w) (trace w).

Definition with_randoms (v : nat -> Z) (w : World) : World :=
  Build_World (messages w) (isProcessing w) (apiKey w) (isOnline w)
    (performanceMetrics w) (isModelLoaded w) (isTTSLoaded w) (isPlaying w)
    (currentStatus w) (isRecording w) (audioBlob w) (whisperWorkerRef w)
    (ttsEngineRef w) (openaiClientRef w) (clock w) (ticks w) v (server w)
    (toLocaleTimeString w) (toLocaleDateString w) (trace w).

Definition with_trace (v : list Event) (w : World) : World :=
  Build_World (messages w) (isProcessing w) (apiKey w) (isOnline w)
    (performanceMetrics w) (isModelLoaded w) (isTTSLoaded w) (isPlaying w)
    (currentStatus w) (isRecording w) (audioBlob w) (whisperWorkerRef w)
    (ttsEngineRef w) (openaiClientRef w) (clock w) (ticks w) (randoms w)
    (server w) (toLocaleTimeString w) (toLocaleDateString w) v.

(** ** Computations: state and exceptions *)

(** A thrown JavaScript error: the constructor's name and the message. *)
Inductive Exn := JsError (name message : string).

Inductive Completion (A : Type) :=
| Normal (a : A)
| Thrown (e : Exn).
Arguments Normal {A} a.
Arguments Thrown {A} e.

Definition M (A : Type) : Type := World -> Completion A * World.

Definition ret {A} (a : A) : M A := fun w => (Normal a, w).

Definition bind {A B} (m : M A) (k : A -> M B) : M B :=
  fun w =>
    match m w with
    | (Normal a, w') => k a w'
    | (Thrown e, w') => (Thrown e, w')
    end.

Definition throw {A} (e : Exn) : M A := fun w => (Thrown e, w).

(** [try { m } catch (e) { h e }] *)
Definition tryCatch {A} (m : M A) (h : Exn -> M A) : M A :=
  fun w =>
    match m w with
    | (Normal a, w') => (Normal a, w')
    | (Thrown e, w') => h e w'
    end.

(** [try { m } finally { f }]: [f] runs on both exits; the completion of
    [m] stands unless [f] throws. *)
Definition tryFinally {A} (m : M A) (f : M unit) : M A :=
  fun w =>
    let (c, w') := m w in
    match f w' with
    | (Normal _, w'') => (c, w'')
    | (Thrown e, w'') => (Thrown e, w'')
    end.

Definition gets {A} (f : World -> A) : M A := fun w => (Normal (f w), w).
Definition modify (f : World -> World) : M unit := fun w => (Normal tt, f w).

Declare Scope js_scope.
Delimit Scope js_scope with js.
Notation "x <- c1 ;; c2" := (bind c1 (fun x => c2))
  (at level 61, c1 at next level, right associativity) : js_scope.
Notation "c1 ;; c2" := (bind c1 (fun _ => c2))
  (at level 61, right associativity) : js_scope.
#[local] Open Scope js_scope.

(** The world a computation leaves, and how it completes. *)
Definition exec {A} (m : M A) (w : World) : World := snd (m w).
Definition completion {A} (m : M A) (w : World) : Completion A := fst (m w).

(** ** The browser *)

Definition emit (e : Event) : M unit :=
  modify (fun w => with_trace (trace w ++ [e]) w).

(** [Date.now()], and the reading inside [new Date()]: the time of the next
    tick passes, then the clock is read. *)
Definition Date_now : M Z :=
  fun w =>
    let t := clock w + ticks w 0%nat in
    (Normal t, with_clock t (with_ticks (fun n => ticks w (S n)) w)).

Definition two53 : Z := 9007199254740992.

(** [Math.random()] is [k / 2^53] for the numerator [k] returned here. *)
Definition Math_random : M Z :=
  fun w =>
    (Normal (randoms w 0%nat mod two53),
     with_randoms (fun n => randoms w (S n)) w).

(** The whole part of [Math.random() * n], for the numerator [k], taken
    of the exact product.  The source multiplies and adds in double
    precision, which can round a sum such as [1000 + r * 2000] up to its
    upper end; an upper bound that is to hold of the source is stated with
    the end included. *)
Definition scaled (k n : Z) : Z := k * n / two53.

(** [await new Promise(resolve => setTimeout(resolve, ms))]: at least [ms]
    pass; what passes beyond is in the next tick. *)
Definition sleep (ms : Z) : M unit :=
  modify (fun w => with_clock (clock w + ms) w).

Definition alert (msg : string) : M unit := emit (Alerted msg).
Definition console_error (msg : string) : M unit := emit (ConsoleError msg).

(** [await fetch(...)]: the request leaves, and the transport either
    rejects or hands back a response. *)
Definition fetch (req : Request) : M (Z * Body) :=
  emit (Fetched req) ;;
  out <- gets (fun w => server w req) ;;
  match out with
  | TransportFailure => throw (JsError "TypeError" "Failed to fetch")
  | HttpResponse status body => ret (status, body)
  end.

(** [response.ok] *)
Definition ok (status : Z) : bool :=
  ((200 <=? status) && (status <=? 299))%Z.

(** [await response.json()] *)
Definition json (body : Body)
  : M (option (list (option (option string)))) :=
  match body with
  | NotJson => throw (JsError "SyntaxError" "Unexpected token")
  | Json choices => ret choices
  end.

Definition dquote : string := String (ascii_of_N 34) EmptyString.

Definition decimal (z : Z) : string := NilZero.string_of_int (Z.to_int z).

(** ** State setters of the component *)

Definition setMessages (f : list Message -> list Message) : M unit :=
  modify (fun w => with_messages (f (messages w)) w).

Definition setIsProcessing (b : bool) : M unit := modify (with_isProcessing b).

Definition setApiKey (k : string) : M unit := modify (with_apiKey k).

Definition setPerformanceMetrics (p : option PerformanceMetrics) : M unit :=
  modify (with_performanceMetrics p).

Definition setIsPlaying (b : bool) : M unit :=
  modify (with_isPlaying b) ;; emit (PlayingShown b).

Definition setCurrentStatus (s : string) : M unit :=
  modify (with_currentStatus s) ;; emit (StatusShown s).

Definition setAudioBlob (b : option Blob) : M unit := modify (with_audioBlob b).

(** ** class MockWhisperWorker *)

Module MockWhisperWorker.

(** [this]: the object behind [whisperWorkerRef.current]; a method call
    through a null ref throws. *)
Definition this : M WhisperWorkerObj :=
  r <- gets whisperWorkerRef ;;
  match r with
  | Some o => ret o
  | None => throw (JsError "TypeError" "Cannot read properties of null")
  end.

Definition update (f : WhisperWorkerObj -> WhisperWorkerObj) : M unit :=
  modify (fun w =>
            with_whisperWorkerRef (option_map f (whisperWorkerRef w)) w).

(** The object right after [new MockWhisperWorker()]; the constructor
    also arms the timer that [loadTimerFires] stands for. *)
Definition new : WhisperWorkerObj :=
  {| ww_isLoaded := false; ww_onmessage := None; ww_timers := [] |}.

Definition message (t : MessageType) : WhisperWorkerMessage :=
  {| type := t; audio := None; text := None; errorText := None;
     latency := None |}.

Definition sendMessage (data : WhisperWorkerMessage) : M unit :=
  o <- this ;;
  match ww_onmessage o with
  | Some cb => emit (OnMessage cb data)
  | None => ret tt
  end.

(** The callback of the constructor's [setTimeout(..., 2000)]. *)
Definition loadTimerFires : M unit :=
  update (fun o => {| ww_isLoaded := true;
                      ww_onmessage := ww_onmessage o;
                      ww_timers := ww_timers o |}) ;;
  sendMessage (message model_loaded).

Definition postMessage (data : WhisperWorkerMessage) : M unit :=
  match type data, audio data with
  | load, _ => ret tt
  | transcribe, Some _ =>
      o <- this ;;
      if negb (ww_isLoaded o) then
        sendMessage {| type := error; audio := None; text := None;
                       errorText := Some "Model not loaded yet";
                       latency := None |}
      else
        startTime <- Date_now ;;
        k <- Math_random ;;
        update (fun o => {| ww_isLoaded := ww_isLoaded o;
                            ww_onmessage := ww_onmessage o;
                            ww_timers := ww_timers o
                                         ++ [(startTime,
                                              1000 + scaled k 2000)] |})
  | _, _ => ret tt
  end.

Definition mockTranscripts : list string :=
  [ "Hello, how are you today?";
    "What's the weather like?";
    "Can you tell me a joke?";
    "What time is it?";
    "Tell me about artificial intelligence";
    "How does machine learning work?";
    "What's the capital of France?";
    "Can you help me with my project?" ].

(** The callback of the oldest pending [setTimeout] of [postMessage]; it
    runs no earlier than its delay after [startTime].  With several
    timers pending the browser runs the one that is due first, which need
    not be the oldest; the properties of this callback are stated for a
    worker with one timer pending, or concern the loaded flag alone. *)
Definition transcribeTimerFires : M unit :=
  o <- this ;;
  match ww_timers o with
  | [] => ret tt
  | (startTime, delay) :: rest =>
      update (fun o => {| ww_isLoaded := ww_isLoaded o;
                          ww_onmessage := ww_onmessage o;
                          ww_timers := rest |}) ;;
      modify (fun w => with_clock (Z.max (clock w) (startTime + delay)) w) ;;
      k <- Math_random ;;
      let transcriptText :=
        nth_error mockTranscripts (Z.to_nat (scaled k 8)) in
      t <- Date_now ;;
      sendMessage {| type := transcript; audio := None;
                     text := transcriptText; errorText := None;
                     latency := Some (t - startTime) |}
  end.

End MockWhisperWorker.

(** ** class MockTTSEngine *)

Module MockTTSEngine.

Definition this : M TTSEngineObj :=
  r <- gets ttsEngineRef ;;
  match r with
  | Some o => ret o
  | None => throw (JsError "TypeError" "Cannot read properties of null")
  end.

(** The object right after [new MockTTSEngine()]: [initialize] has
    created the audio context, or failed to and logged it. *)
Definition new (contextCreated : bool) : TTSEngineObj :=
  {| tts_isLoaded := false;
     tts_audioContext :=
       if contextCreated then Some audioContext else None |}.

(** The callback of [initialize]'s [setTimeout(..., 3000)]. *)
Definition loadTimerFires : M unit :=
  modify (fun w =>
            with_ttsEngineRef
              (option_map (fun o => {| tts_isLoaded := true;
                                       tts_audioContext :=
                                         tts_audioContext o |})
                          (ttsEngineRef w)) w).

(** [duration = Math.max(1, text.length * 0.1)] seconds is kept in tenths
    of a second, which makes [sampleRate * duration] the exact product
    where the source computes it in floating point. *)
Definition synthesize (txt : string) : M (AudioBuffer * Z) :=
  o <- this ;;
  if negb (tts_isLoaded o) then
    throw (JsError "Error" "TTS model not loaded yet")
  else
    startTime <- Date_now ;;
    k <- Math_random ;;
    sleep (500 + scaled k 1500) ;;
    let rate := 22050 in
    let durationTenths := Z.max 10 (Z.of_nat (String.length txt)) in
    match tts_audioContext o with
    | None =>
        throw (JsError "TypeError" "Cannot read properties of null")
    | Some _ =>
        let audioBuffer :=
          {| numberOfChannels := 1;
             frames := rate * durationTenths / 10;
             sampleRate := rate |} in
        t <- Date_now ;;
        ret (audioBuffer, t - startTime)
    end.

(** The promise resolves when the source node has played the buffer. *)
Definition playAudio (audioBuffer : AudioBuffer) : M unit :=
  o <- this ;;
  match tts_audioContext o with
  | None => ret tt
  | Some _ =>
      emit (AudioStarted audioBuffer) ;;
      sleep (frames audioBuffer * 1000 / sampleRate audioBuffer)
  end.

Definition isModelLoaded : M bool :=
  o <- this ;; ret (tts_isLoaded o).

End MockTTSEngine.

(** ** class OpenAIClient *)

Module OpenAIClient.

Definition jokes : list string :=
  [ "Why don't scientists trust atoms? Because they make up everything!";
    "What do you call a fake noodle? An impasta!";
    "Why did the scarecrow win an award? He was outstanding in his field!" ].

Definition greeting : string :=
  "Hello! I'm your AI assistant. How can I help you today?".

Definition weather : string :=
  "I don't have access to real-time weather data, but I hope it's pleasant where you are!".

Definition generateFallbackResponse (input : string) : M string :=
  let lowerInput := toLowerCase input in
  if includes lowerInput "hello" || includes lowerInput "hi" then
    ret greeting
  else if includes lowerInput "weather" then
    ret weather
  else if includes lowerInput "joke" then
    k <- Math_random ;;
    ret (nth (Z.to_nat (scaled k 3)) jokes "undefined")
  else if includes lowerInput "time" then
    t <- Date_now ;;
    fmt <- gets toLocaleTimeString ;;
    ret ("The current time is " ++ fmt t ++ ".")
  else
    ret ("I understand you said: " ++ dquote ++ input ++ dquote
         ++ ". That's interesting! What would you like to know more about?").

Definition noResponse : string := "Sorry, I could not generate a response.".

(** [messages[messages.length - 1]?.content || ''] *)
Definition lastContent (msgs : list Message) : string :=
  match rev msgs with
  | [] => ""
  | m :: _ => content m
  end.

Definition request (c : OpenAIClientObj) (msgs : list Message) : Request :=
  {| url := "https://api.openai.com/v1/chat/completions";
     authorization := "Bearer " ++ client_apiKey c;
     model := "gpt-3.5-turbo";
     req_messages := map (fun msg => (role msg, content msg)) msgs;
     max_tokens := 150;
     temperature_tenths := 7 |}.

(** Lines 178-187: the [catch (error)] block of [chatCompletion]. *)
Definition chatCompletion_catch (msgs : list Message) (startTime : Z)
    (_ : Exn) : M (string * Z) :=
  console_error "OpenAI API Error:" ;;
  k <- Math_random ;;
  sleep (800 + scaled k 1500) ;;
  t <- Date_now ;;
  let latency := t - startTime in
  reply <- generateFallbackResponse (lastContent msgs) ;;
  ret (reply, latency).

Definition chatCompletion (c : OpenAIClientObj) (msgs : list Message)
  : M (string * Z) :=
  startTime <- Date_now ;;
  tryCatch
    (response <- fetch (request c msgs) ;;
     let (status, body) := response in
     if negb (ok status) then
       throw (JsError "Error" ("OpenAI API error: " ++ decimal status))
     else
       data <- json body ;;
       t <- Date_now ;;
       let latency := t - startTime in
       match data with
       | None =>
           throw (JsError "TypeError" "Cannot read properties of undefined")
       | Some choices =>
           let c0 := match choices with
                     | Some (Some txt) :: _ => txt
                     | _ => ""
                     end in
           ret (if truthy c0 then c0 else noResponse, latency)
       end)
    (chatCompletion_catch msgs startTime).

End OpenAIClient.

(** ** function useAudioRecorder *)

(** The bodies of [startRecording] and [stopRecording] are elided in the
    source; a call to either is recorded and changes nothing else. *)
Definition startRecording : M unit := emit StartRecordingCalled.
Definition stopRecording : M unit := emit StopRecordingCalled.
Definition resetAudio : M unit := setAudioBlob None.

(** ** function VoiceAI *)

(** The state a render hands to the closures it creates. *)
Record Render := {
  r_messages : list Message;
  r_apiKey : string;
  r_isOnline : bool;
  r_isModelLoaded : bool;
  r_isTTSLoaded : bool;
  r_isRecording : bool;
  r_audioBlob : option Blob
}.

Definition render (w : World) : Render :=
  {| r_messages := messages w;
     r_apiKey := apiKey w;
     r_isOnline := isOnline w;
     r_isModelLoaded := isModelLoaded w;
     r_isTTSLoaded := isTTSLoaded w;
     r_isRecording := isRecording w;
     r_audioBlob := audioBlob w |}.

Definition transcribeRequest (b : Blob) : WhisperWorkerMessage :=
  {| type := transcribe; audio := Some b; text := None; errorText := None;
     latency := None |}.

(** The first [useEffect], under the comment "Initialize services". *)
Definition effect_initializeServices (r : Render) : M unit :=
  worker <- gets whisperWorkerRef ;;
  match r_audioBlob r, worker with
  | Some b, Some _ =>
      if r_isModelLoaded r then
        setIsProcessing true ;;
        setCurrentStatus "Processing speech..." ;;
        MockWhisperWorker.postMessage (transcribeRequest b) ;;
        resetAudio
      else ret tt
  | _, _ => ret tt
  end.

(** The second [useEffect], "Handle API key changes". *)
Definition effect_apiKey (r : Render) : M unit :=
  if truthy (r_apiKey r) && truthy (trim (r_apiKey r)) then
    modify (with_openaiClientRef (Some {| client_apiKey := r_apiKey r |}))
  else ret tt.

(** The third [useEffect], "Process audio blob". *)
Definition effect_processAudioBlob (r : Render) : M unit :=
  worker <- gets whisperWorkerRef ;;
  match r_audioBlob r, worker with
  | Some b, Some _ =>
      if r_isModelLoaded r then
        setIsProcessing true ;;
        setCurrentStatus "Processing speech..." ;;
        MockWhisperWorker.postMessage (transcribeRequest b) ;;
        resetAudio
      else ret tt
  | _, _ => ret tt
  end.

(** The render after [audioBlob] or [isModelLoaded] changed: the effects
    that list it as a dependency run once each, in the order of their
    declaration, all with the state of that render. *)
Definition commitAudioBlob (r : Render) : M unit :=
  effect_initializeServices r ;;
  effect_processAudioBlob r.

(** The [onChange] of the key input, followed by the render it causes;
    setting the state to the value it has causes none. *)
Definition changeApiKey (value : string) : M unit :=
  old <- gets apiKey ;;
  setApiKey value ;;
  if String.eqb old value then ret tt
  else (r <- gets render ;; effect_apiKey r).

Definition offlineGreeting : string :=
  "Hello! I'm running in offline mode with local speech processing. How can I help you?".

Definition getOfflineResponse (input : string) : M string :=
  let lowerInput := toLowerCase input in
  if includes lowerInput "hello" || includes lowerInput "hi" then
    ret offlineGreeting
  else if includes lowerInput "time" then
    t <- Date_now ;;
    fmt <- gets toLocaleTimeString ;;
    ret ("The current time is " ++ fmt t)
  else if includes lowerInput "date" then
    t <- Date_now ;;
    fmt <- gets toLocaleDateString ;;
    ret ("Today's date is " ++ fmt t)
  else
    ret ("You said: " ++ dquote ++ input ++ dquote
         ++ ". I'm running offline with local STT and TTS. What would you like to know?").

Definition errorReply : string :=
  "Sorry, I encountered an error processing your request.".

(** Lines 345-354: the [catch (error)] block of [handleTranscript]. *)
Definition handleTranscript_catch (_ : Exn) : M unit :=
  console_error "Error processing transcript:" ;;
  setCurrentStatus "Error processing request" ;;
  now <- Date_now ;;
  let errorMessage :=
    {| role := assistant; content := errorReply; timestamp := now |} in
  setMessages (fun prev => (prev ++ [errorMessage])%list).

(** Lines 297-305 of [handleTranscript]: the reply, from the remote end
    when on line with a client, from [getOfflineResponse] otherwise. *)
Definition handleTranscript_complete (r : Render) (text : string)
    (userMessage : Message) (apiStartTime : Z) : M (string * Z) :=
  client <- gets openaiClientRef ;;
  match r_isOnline r, client with
  | true, Some c =>
      OpenAIClient.chatCompletion c (r_messages r ++ [userMessage])
  | _, _ =>
      sleep 500 ;;
      aiResponse <- getOfflineResponse text ;;
      t <- Date_now ;;
      ret (aiResponse, t - apiStartTime)
  end.

(** Lines 316-343 of [handleTranscript]: synthesis, playback and the
    metrics, inside their own [try]. *)
Definition handleTranscript_speak (r : Render) (sttLatency : Z)
    (overallStartTime : Z) (aiResponse : string) (apiLatency : Z) : M unit :=
  engine <- gets ttsEngineRef ;;
  match engine with
  | Some _ =>
      if r_isTTSLoaded r then
        tryCatch
          (ttsStartTime <- Date_now ;;
           synthesized <- MockTTSEngine.synthesize aiResponse ;;
           let (audioBuffer, ttsLatency) := synthesized in
           setCurrentStatus "Playing audio..." ;;
           setIsPlaying true ;;
           playbackStart <- Date_now ;;
           MockTTSEngine.playAudio audioBuffer ;;
           setIsPlaying false ;;
           setCurrentStatus "Ready to chat!" ;;
           t <- Date_now ;;
           let totalLatency := t - overallStartTime in
           setPerformanceMetrics
             (Some {| sttLatency := sttLatency;
                      apiLatency := apiLatency;
                      ttsLatency := ttsLatency;
                      totalLatency := totalLatency;
                      playbackStart := playbackStart - overallStartTime |}))
          (fun _ =>
             console_error "TTS Error:" ;;
             setCurrentStatus "TTS error, but response received")
      else ret tt
  | None => ret tt
  end.

Definition handleTranscript (r : Render) (text : string) (sttLatency : Z)
  : M unit :=
  overallStartTime <- Date_now ;;
  now <- Date_now ;;
  let userMessage := {| role := user; content := text; timestamp := now |} in
  setMessages (fun prev => (prev ++ [userMessage])%list) ;;
  setCurrentStatus "Getting AI response..." ;;
  tryFinally
    (tryCatch
       (apiStartTime <- Date_now ;;
        result <- handleTranscript_complete r text userMessage apiStartTime ;;
        let (aiResponse, apiLatency) := result in
        now <- Date_now ;;
        let assistantMessage :=
          {| role := assistant; content := aiResponse; timestamp := now |} in
        setMessages (fun prev => (prev ++ [assistantMessage])%list) ;;
        setCurrentStatus "Synthesizing speech..." ;;
        handleTranscript_speak r sttLatency overallStartTime aiResponse
          apiLatency)
       handleTranscript_catch)
    (setIsProcessing false).

Definition handleRecordingToggle (r : Render) : M unit :=
  if r_isRecording r then
    stopRecording ;;
    setCurrentStatus "Processing recording..."
  else if negb (r_isModelLoaded r) then
    alert "Please wait for the Whisper model to load first!"
  else
    startRecording ;;
    setCurrentStatus "Listening... Click stop when done".

Definition clearConversation : M unit :=
  setMessages (fun _ => []) ;;
  setPerformanceMetrics None ;;
  setCurrentStatus "Ready to chat!".

Definition isReady (r : Render) : bool :=
  r_isModelLoaded r && r_isTTSLoaded r.

(** ** Sample worlds *)

Definition twoDigits (z : Z) : string :=
  if (z <? 10)%Z then "0" ++ decimal z else decimal z.

(** A 24-hour, UTC rendering of the time of day. *)
Definition sampleTime (t : Z) : string :=
  let s := t / 1000 in
  twoDigits (s / 3600 mod 24) ++ ":" ++ twoDigits (s / 60 mod 60)
  ++ ":" ++ twoDigits (s mod 60).

Definition sampleDate (t : Z) : string :=
  "day " ++ decimal (t / 86400000).

(** The state of the first render: the [useState] and [useRef] initial
    values, a clock that moves by one millisecond per reading, and a remote
    end that cannot be reached. *)
Definition initialWorld : World :=
  {| messages := [];
     isProcessing := false;
     apiKey := "";
     isOnline := true;
     performanceMetrics := None;
     isModelLoaded := false;
     isTTSLoaded := false;
     isPlaying := false;
     currentStatus := "Initializing...";
     isRecording := false;
     audioBlob := None;
     whisperWorkerRef := None;
     ttsEngineRef := None;
     openaiClientRef := None;
     clock := 0;
     ticks := fun _ => 1;
     randoms := fun n => Z.of_nat n * 1000000000000000;
     server := fun _ => TransportFailure;
     toLocaleTimeString := sampleTime;
     toLocaleDateString := sampleDate;
     trace := [] |}.

(** Both engines constructed and loaded, in the component and in the
    objects. *)
Definition readyWorld : World :=
  with_ttsEngineRef
    (Some {| tts_isLoaded := true; tts_audioContext := Some audioContext |})
    (with_whisperWorkerRef
       (Some {| ww_isLoaded := true; ww_onmessage := None; ww_timers := [] |})
       (Build_World [] false "" true None true true false "Ready to chat!"
          false None None None None 0 (fun _ => 1)
          (fun n => Z.of_nat n * 1000000000000000)
          (fun _ => TransportFailure) sampleTime sampleDate [])).

(** ** The vocabulary of the properties *)

#[local] Open Scope list_scope.

(** The component's state and refs, and the parts of the browser that do
    not move: everything but the clock, the two streams and the trace. *)
Definition component (w : World) : World :=
  with_clock 0 (with_ticks (fun _ => 0)
                  (with_randoms (fun _ => 0) (with_trace [] w))).

(** Requests sent, and the history of what the status line and the playing
    light showed. *)
Definition fetched (t : list Event) : list Request :=
  flat_map (fun e => match e with Fetched q => [q] | _ => [] end) t.

Definition shown (t : list Event) : list Event :=
  filter (fun e => match e with
                   | StatusShown _ | PlayingShown _ => true
                   | _ => false
                   end) t.

(** No coming tick is negative: the clock never runs backwards. *)
Definition steady (w : World) : Prop := forall n, 0 <= ticks w n.

Definition onward (w w' : World) : Prop :=
  clock w <= clock w' /\ steady w'.

(** [passes w evs w']: from [w] to [w'] only the browser moved: the state
    and refs of the component are the same, [evs] was appended to the
    trace, and a steady clock stayed steady and did not go back. *)
Definition passes (w : World) (evs : list Event) (w' : World) : Prop :=
  component w' = component w
  /\ trace w' = trace w ++ evs
  /\ (steady w -> onward w w').

(** The parts of the browser that no step moves. *)
Definition settled (w v : World) : Prop :=
  server v = server w
  /\ toLocaleTimeString v = toLocaleTimeString w
  /\ toLocaleDateString v = toLocaleDateString w.

(** Where a reply can come from: the remote client, given the history of
    the render and the new user message, or the offline responder. *)
Definition repliedBy (r : Render) (w : World) (text : string)
    (userMessage : Message) (reply : string) (evs : list Event) : Prop :=
  match r_isOnline r, openaiClientRef w with
  | true, Some c =>
      fetched evs = [OpenAIClient.request c (r_messages r ++ [userMessage])]
      /\ exists v lat,
           settled w v
           /\ completion
                (OpenAIClient.chatCompletion c
                   (r_messages r ++ [userMessage])) v
              = Normal (reply, lat)
  | _, _ =>
      fetched evs = []
      /\ exists v,
           settled w v
           /\ completion (getOfflineResponse text) v = Normal reply
  end.

(** Synthesis is attempted and goes through. *)
Definition ttsWorks (r : Render) (w : World) : Prop :=
  r_isTTSLoaded r = true
  /\ exists e a, ttsEngineRef w = Some e /\ tts_isLoaded e = true
                 /\ tts_audioContext e = Some a.

(** Synthesis is attempted and throws. *)
Definition ttsFails (r : Render) (w : World) : Prop :=
  r_isTTSLoaded r = true
  /\ exists e, ttsEngineRef w = Some e
               /\ (tts_isLoaded e = false \/ tts_audioContext e = None).

(** Synthesis is not attempted. *)
Definition ttsSkipped (r : Render) (w : World) : Prop :=
  r_isTTSLoaded r = false \/ ttsEngineRef w = None.

Definition ttsErrorStatus : string := "TTS error, but response received".

Definition userTurn (text : string) (t : Z) : Message :=
  {| role := user; content := text; timestamp := t |}.

Definition assistantTurn (reply : string) (t : Z) : Message :=
  {| role := assistant; content := reply; timestamp := t |}.

(** The first end-to-end scenario: on line, a client configured, a remote
    end that answers "Hello!", so that the synthesized buffer lasts one
    second. *)
Definition scenarioWorld : World :=
  Build_World [] false "sk-test" true None true true false "Ready to chat!"
    false None
    (Some {| ww_isLoaded := true; ww_onmessage := None; ww_timers := [] |})
    (Some {| tts_isLoaded := true; tts_audioContext := Some audioContext |})
    (Some {| client_apiKey := "sk-test" |})
    0 (fun _ => 1) (fun n => Z.of_nat n * 1000000000000000)
    (fun _ => HttpResponse 200 (Json (Some [Some (Some "Hello!")])))
    sampleTime sampleDate [].

(** A worker that was constructed and has not finished loading, in the
    ref, with an utterance waiting. *)
Definition unloadedWorkerWorld : World :=
  with_audioBlob (Some (blob 0))
    (with_whisperWorkerRef (Some MockWhisperWorker.new) readyWorld).

(** An utterance is ready, the worker is loaded and the component knows
    it. *)
Definition utteranceReadyWorld : World :=
  with_audioBlob (Some (blob 0)) readyWorld.

(** The engine object exists and the component believes it loaded, but it
    has not finished loading. *)
Definition ttsLoadingWorld : World :=
  with_ttsEngineRef (Some (MockTTSEngine.new true)) readyWorld.

Inductive Branch :=
| Greeting | Weather | Joke | TimeOfDay | DateToday | Echo.

(** The branches as the specification lists them for "the local fallback
    responder": greeting, weather, joke, time, and the echo for the rest,
    each chosen by its keyword occurring in the lower-cased text. *)
Definition claimedBranch (input : string) : Branch :=
  let lowerInput := toLowerCase input in
  if includes lowerInput "hello" || includes lowerInput "hi" then Greeting
  else if includes lowerInput "weather" then Weather
  else if includes lowerInput "joke" then Joke
  else if includes lowerInput "time" then TimeOfDay
  else Echo.

(** The branches [getOfflineResponse] has. *)
Definition offlineBranch (input : string) : Branch :=
  let lowerInput := toLowerCase input in
  if includes lowerInput "hello" || includes lowerInput "hi" then Greeting
  else if includes lowerInput "time" then TimeOfDay
  else if includes lowerInput "date" then DateToday
  else Echo.

Definition fallbackEcho (input : string) : string :=
  ("I understand you said: " ++ dquote ++ input ++ dquote
   ++ ". That's interesting! What would you like to know more about?")%string.

Definition offlineEcho (input : string) : string :=
  ("You said: " ++ dquote ++ input ++ dquote
   ++ ". I'm running offline with local STT and TTS. What would you like to know?")%string.

(** The reply of [generateFallbackResponse] in world [w], per branch: fixed
    by the text, but for the time, which is read off the clock, and the
    joke, which is drawn. *)
Definition fallbackReply (b : Branch) (input : string) (w : World)
    (reply : string) : Prop :=
  match b with
  | Greeting => reply = OpenAIClient.greeting
  | Weather => reply = OpenAIClient.weather
  | Joke => In reply OpenAIClient.jokes
  | TimeOfDay =>
      reply = ("The current time is "
               ++ toLocaleTimeString w (clock w + ticks w 0%nat) ++ ".")%string
  | DateToday => False
  | Echo => reply = fallbackEcho input
  end.

(** The reply of [getOfflineResponse] in world [w], per branch: fixed by
    the text, but for the time and the date, which are read off the
    clock. *)
Definition offlineReply (b : Branch) (input : string) (w : World)
    (reply : string) : Prop :=
  match b with
  | Greeting => reply = offlineGreeting
  | TimeOfDay =>
      reply = ("The current time is "
               ++ toLocaleTimeString w (clock w + ticks w 0%nat))%string
  | DateToday =>
      reply = ("Today's date is "
               ++ toLocaleDateString w (clock w + ticks w 0%nat))%string
  | Echo => reply = offlineEcho input
  | Weather | Joke => False
  end.

Definition offlineRender : Render :=
  {| r_messages := []; r_apiKey := "sk-test"; r_isOnline := false;
     r_isModelLoaded := true; r_isTTSLoaded := true;
     r_isRecording := false; r_audioBlob := None |}.

Definition waitForModel : string :=
  "Please wait for the Whisper model to load first!".

(** A client configured with a key, and the key in the input. *)
Definition keyedWorld : World :=
  with_apiKey "sk-test"
    (with_openaiClientRef (Some {| client_apiKey := "sk-test" |}) readyWorld).

(** The remote end gives nothing [chatCompletion] can use: the transport
    fails, the status is not 2xx, the body is not JSON, or the JSON has no
    [choices]. *)
Definition remoteFailed (out : FetchOutcome) : bool :=
  match out with
  | TransportFailure => true
  | HttpResponse status body =>
      negb (ok status)
      || match body with
         | NotJson => true
         | Json None => true
         | Json (Some _) => false
         end
  end.

(** [data.choices[0]?.message?.content || 'Sorry, ...'] *)
Definition chosenReply (choices : list (option (option string))) : string :=
  match choices with
  | Some (Some txt) :: _ => if truthy txt then txt else OpenAIClient.noResponse
  | _ => OpenAIClient.noResponse
  end.

(** The history as the request carries it. *)
Definition stripped (msgs : list Message) : list (Role * string) :=
  map (fun msg => (role msg, content msg)) msgs.

(** A loaded worker with a listener installed and nothing pending. *)
Definition listeningWorld : World :=
  with_whisperWorkerRef
    (Some {| ww_isLoaded := true; ww_onmessage := Some (callback 0);
             ww_timers := [] |})
    readyWorld.

(** The worker's flag after a step, if there is a worker. *)
Definition workerLoaded (w : World) : option bool :=
  option_map ww_isLoaded (whisperWorkerRef w).

(** The test both effects make before they do anything. *)
Definition effectGuard (r : Render) (w : World) : bool :=
  match r_audioBlob r, whisperWorkerRef w with
  | Some _, Some _ => r_isModelLoaded r
  | _, _ => false
  end.

(** Runs one after the other, each with the render, the transcript and the
    transcription latency it is handed. *)
Fixpoint runs (l : list (Render * string * Z)) : M unit :=
  match l with
  | [] => ret tt
  | (r, text, stt) :: rest => handleTranscript r text stt ;; runs rest
  end.

(** [n] exchanges: user, assistant, user, assistant, ... *)
Fixpoint exchanges (n : nat) : list Role :=
  match n with
  | O => []
  | S k => user :: assistant :: exchanges k
  end.

(** What the user turns of a stretch of the store say, in order. *)
Definition userContents (ms : list Message) : list string :=
  flat_map (fun m => match role m with
                     | user => [content m]
                     | assistant => []
                     end) ms.

(** The handler of a render with an empty history, run when the store has
    moved on. *)
Definition movedOnWorld : World :=
  with_messages [userTurn "What time is it?" 10;
                 assistantTurn "The current time is 00:00:00" 20]
    scenarioWorld.

(** The [disabled] attribute of the record button, as the render of [w]
    computes it. *)
Definition recordDisabled (w : World) : bool :=
  negb (isReady (render w)) || isProcessing w.

(** * Properties *)

(** ** Strings *)

Lemma trimStart_blank (s : string) : blank s = true -> trimStart s = "".
Proof.
  induction s as [|c r IH]; simpl; intros H; [reflexivity|].
  apply andb_true_iff in H as [Hc Hr]. rewrite Hc. auto.
Qed.

Lemma trimEnd_truthy (s : string) :
  truthy (trimEnd s) = negb (blank s).
Proof.
  induction s as [|c r IH]; simpl; [reflexivity|].
  destruct (trimEnd r) eqn:E; simpl in *.
  - apply (f_equal negb) in IH. rewrite negb_involutive in IH.
    simpl in IH. rewrite <- IH.
    destruct (isWhiteSpace c); reflexivity.
  - apply (f_equal negb) in IH. rewrite negb_involutive in IH.
    simpl in IH. rewrite <- IH. rewrite andb_false_r. reflexivity.
Qed.

Lemma trimStart_keeps_blank (s : string) : blank (trimStart s) = blank s.
Proof.
  induction s as [|c r IH]; simpl; [reflexivity|].
  destruct (isWhiteSpace c) eqn:E; simpl; [exact IH|].
  rewrite E. reflexivity.
Qed.

Lemma trim_truthy (s : string) : truthy (trim s) = negb (blank s).
Proof.
  unfold trim. rewrite trimEnd_truthy, trimStart_keeps_blank. reflexivity.
Qed.

(** The test of the key effect, [apiKey && apiKey.trim()], holds exactly
    of the keys with a code unit that is not white space. *)
Lemma key_test (k : string) :
  truthy k && truthy (trim k) = negb (blank k).
Proof.
  rewrite trim_truthy. destruct k; simpl; [reflexivity|].
  reflexivity.
Qed.

(** ** Numbers drawn from [Math.random] *)

Lemma scaled_nonneg (k n : Z) : 0 <= k -> 0 <= n -> 0 <= scaled k n.
Proof.
  intros Hk Hn. unfold scaled, two53. apply Z.div_pos; nia.
Qed.

Lemma scaled_below (k n : Z) : 0 <= k < two53 -> 0 < n -> scaled k n < n.
Proof.
  intros Hk Hn. unfold scaled, two53 in *.
  apply Z.div_lt_upper_bound; nia.
Qed.

Lemma random_range (z : Z) : 0 <= z mod two53 < two53.
Proof. apply Z.mod_pos_bound. reflexivity. Qed.

(** ** What a step leaves alone *)

Lemma fetched_app (s t : list Event) : fetched (s ++ t) = fetched s ++ fetched t.
Proof. apply flat_map_app. Qed.

Lemma shown_app (s t : list Event) : shown (s ++ t) = shown s ++ shown t.
Proof. apply filter_app. Qed.

(** ** Time *)

Lemma onward_refl (w : World) : steady w -> onward w w.
Proof. intros H; split; [lia | exact H]. Qed.

Lemma onward_trans (a b c : World) : onward a b -> onward b c -> onward a c.
Proof. intros [H1 _] [H2 H3]; split; [lia | exact H3]. Qed.

Lemma passes_refl (w : World) : passes w [] w.
Proof.
  repeat split; [symmetry; apply app_nil_r | lia | assumption].
Qed.

Lemma passes_trans (a b c : World) (e1 e2 : list Event) :
  passes a e1 b -> passes b e2 c -> passes a (e1 ++ e2) c.
Proof.
  intros (C1 & T1 & O1) (C2 & T2 & O2). repeat split.
  - congruence.
  - rewrite T2, T1. symmetry. apply app_assoc.
  - destruct (O1 H) as [L1 S1]. destruct (O2 S1). lia.
  - apply O2, O1, H.
Qed.

(** Running the monad's own steps, and nothing else: arithmetic, strings
    and the collaborators' methods stay folded. *)
Ltac run :=
  unfold fetch, json, console_error, alert, setMessages, setIsProcessing,
    setApiKey, setPerformanceMetrics, setIsPlaying, setCurrentStatus,
    setAudioBlob, emit, sleep, Date_now, Math_random, exec, completion,
    tryCatch, tryFinally, bind, ret, throw, gets, modify, component in *;
  cbn [with_messages with_isProcessing with_apiKey with_performanceMetrics
       with_isPlaying with_currentStatus with_audioBlob
       with_whisperWorkerRef with_ttsEngineRef with_openaiClientRef
       with_clock with_ticks with_randoms with_trace
       messages isProcessing apiKey isOnline performanceMetrics
       isModelLoaded isTTSLoaded isPlaying currentStatus isRecording
       audioBlob whisperWorkerRef ttsEngineRef openaiClientRef clock ticks
       randoms server toLocaleTimeString toLocaleDateString trace
       fst snd negb andb orb option_map] in *.

(** Two worlds with the same fields are the same world. *)
Lemma world_ext (w v : World) :
  messages w = messages v -> isProcessing w = isProcessing v ->
  apiKey w = apiKey v -> isOnline w = isOnline v ->
  performanceMetrics w = performanceMetrics v ->
  isModelLoaded w = isModelLoaded v -> isTTSLoaded w = isTTSLoaded v ->
  isPlaying w = isPlaying v -> currentStatus w = currentStatus v ->
  isRecording w = isRecording v -> audioBlob w = audioBlob v ->
  whisperWorkerRef w = whisperWorkerRef v ->
  ttsEngineRef w = ttsEngineRef v -> openaiClientRef w = openaiClientRef v ->
  clock w = clock v -> ticks w = ticks v -> randoms w = randoms v ->
  server w = server v -> toLocaleTimeString w = toLocaleTimeString v ->
  toLocaleDateString w = toLocaleDateString v -> trace w = trace v ->
  w = v.
Proof.
  destruct w, v; cbn; intros; subst; reflexivity.
Qed.

(** Reading a field of the component through [passes]. *)
Lemma passes_field {A} (f : World -> A) (w w' : World) (evs : list Event) :
  (forall v, f (component v) = f v) ->
  passes w evs w' -> f w' = f w.
Proof.
  intros Hf (C & _). rewrite <- (Hf w'), <- (Hf w), C. reflexivity.
Qed.

Ltac field P f :=
  let E := fresh "E" in
  pose proof (passes_field f _ _ _ (fun _ => eq_refl) P) as E;
  run.

Ltac steady_now :=
  lazymatch goal with
  | H : steady _ |- steady _ => let n := fresh in intro n; run; apply H
  end.

(** *** The two responders *)

Lemma getOfflineResponse_spec (input : string) (w : World) :
  exists reply w',
    getOfflineResponse input w = (Normal reply, w') /\ passes w [] w'.
Proof.
  unfold getOfflineResponse.
  destruct (includes (toLowerCase input) "hello"
            || includes (toLowerCase input) "hi").
  { do 2 eexists; split; [reflexivity | apply passes_refl]. }
  destruct (includes (toLowerCase input) "time").
  { do 2 eexists; split; [reflexivity|].
    repeat split; run; try (symmetry; apply app_nil_r);
      try (specialize (H 0%nat); lia); try steady_now. }
  destruct (includes (toLowerCase input) "date").
  { do 2 eexists; split; [reflexivity|].
    repeat split; run; try (symmetry; apply app_nil_r);
      try (specialize (H 0%nat); lia); try steady_now. }
  do 2 eexists; split; [reflexivity | apply passes_refl].
Qed.

Lemma generateFallbackResponse_spec (input : string) (w : World) :
  exists reply w',
    OpenAIClient.generateFallbackResponse input w = (Normal reply, w')
    /\ passes w [] w'.
Proof.
  unfold OpenAIClient.generateFallbackResponse.
  destruct (includes (toLowerCase input) "hello"
            || includes (toLowerCase input) "hi").
  { do 2 eexists; split; [reflexivity | apply passes_refl]. }
  destruct (includes (toLowerCase input) "weather").
  { do 2 eexists; split; [reflexivity | apply passes_refl]. }
  destruct (includes (toLowerCase input) "joke").
  { do 2 eexists; split; [reflexivity|].
    repeat split; run; try (symmetry; apply app_nil_r); try lia;
      try assumption. }
  destruct (includes (toLowerCase input) "time").
  { do 2 eexists; split; [reflexivity|].
    repeat split; run; try (symmetry; apply app_nil_r);
      try (specialize (H 0%nat); lia); try steady_now. }
  do 2 eexists; split; [reflexivity | apply passes_refl].
Qed.

(** *** The remote completion never fails outward *)

Arguments OpenAIClient.generateFallbackResponse : simpl never.
Arguments getOfflineResponse : simpl never.

Lemma chatCompletion_catch_spec (msgs : list Message) (startTime : Z)
    (w0 w : World) (evs0 : list Event) (e : Exn) :
  passes w0 evs0 w ->
  (steady w0 -> clock w0 <= startTime <= clock w) ->
  exists reply lat w',
    OpenAIClient.chatCompletion_catch msgs startTime e w
    = (Normal (reply, lat), w')
    /\ passes w0 (evs0 ++ [ConsoleError "OpenAI API Error:"]) w'
    /\ (steady w0 -> 0 <= lat <= clock w' - clock w0).
Proof.
  intros P Hs. unfold OpenAIClient.chatCompletion_catch. run.
  match goal with
  | |- context [OpenAIClient.generateFallbackResponse ?i ?v] =>
      destruct (generateFallbackResponse_spec i v) as (reply & w' & E & Q);
      set (w1 := v) in *
  end.
  rewrite E.
  pose proof (random_range (randoms w 0%nat)) as R.
  pose proof (scaled_nonneg _ 1500 (proj1 R) ltac:(lia)) as R'.
  assert (P1 : passes w [ConsoleError "OpenAI API Error:"] w1).
  { split; [reflexivity | split; [reflexivity|]].
    intros S. split; [subst w1; specialize (S 0%nat); run; lia|].
    intro n. subst w1. run. apply S. }
  pose proof (passes_trans _ _ _ _ _ (passes_trans _ _ _ _ _ P P1) Q) as PP.
  rewrite app_nil_r in PP.
  do 3 eexists. split; [reflexivity|]. split; [exact PP|].
  intros S. specialize (Hs S).
  destruct P as (_ & _ & O). destruct (O S) as [L S'].
  destruct Q as (_ & _ & O').
  assert (S1 : steady w1) by (intro n; subst w1; run; apply S').
  destruct (O' S1) as [L' _]. subst w1. run.
  specialize (S' 0%nat). lia.
Qed.

Lemma chatCompletion_spec (c : OpenAIClientObj) (msgs : list Message)
    (w : World) :
  exists reply lat w' evs,
    OpenAIClient.chatCompletion c msgs w = (Normal (reply, lat), w')
    /\ passes w (Fetched (OpenAIClient.request c msgs) :: evs) w'
    /\ shown evs = [] /\ fetched evs = []
    /\ (steady w -> 0 <= lat <= clock w' - clock w).
Proof.
  unfold OpenAIClient.chatCompletion.
  set (q := OpenAIClient.request c msgs).
  run.
  set (t0 := clock w + ticks w 0%nat).
  set (w2 := with_trace _ _).
  assert (P2 : passes w [Fetched q] w2).
  { split; [reflexivity | split; [reflexivity|]].
    intros S. split; [subst w2; specialize (S 0%nat); run; lia|].
    intro n. subst w2. run. apply S. }
  assert (F : forall e w3 evs, passes w2 evs w3 -> shown evs = [] ->
             fetched evs = [] ->
             exists reply lat w' evs,
             OpenAIClient.chatCompletion_catch msgs t0 e w3
             = (Normal (reply, lat), w')
             /\ passes w (Fetched q :: evs) w'
             /\ shown evs = [] /\ fetched evs = []
             /\ (steady w -> 0 <= lat <= clock w' - clock w)).
  { intros e w3 evs P3 Sh Fe.
    pose proof (passes_trans _ _ _ _ _ P2 P3) as P23.
    destruct (chatCompletion_catch_spec msgs t0 w w3 _ e P23)
      as (reply & lat & w' & E & P & L).
    - intros S. destruct P23 as (_ & _ & O). destruct (O S) as [L _].
      destruct P3 as (_ & _ & O3). destruct P2 as (_ & _ & O2).
      destruct (O2 S) as [L2 S2]. destruct (O3 S2) as [L3 _].
      subst w2 t0. run. specialize (S 0%nat). lia.
    - exists reply, lat, w', (evs ++ [ConsoleError "OpenAI API Error:"]).
      split; [exact E|]. split; [exact P|].
      rewrite shown_app, fetched_app, Sh, Fe.
      split; [reflexivity|]. split; [reflexivity|]. exact L. }
  destruct (server w q) as [|status body]; run.
  { apply (F _ w2 []); [apply passes_refl | reflexivity | reflexivity]. }
  destruct (ok status); run.
  2:{ apply (F _ w2 []); [apply passes_refl | reflexivity | reflexivity]. }
  destruct body as [|choices]; run.
  { apply (F _ w2 []); [apply passes_refl | reflexivity | reflexivity]. }
  set (w3 := with_clock _ _).
  assert (P3 : passes w2 [] w3).
  { split; [reflexivity | split; [symmetry; apply app_nil_r|]].
    intros S. split; [subst w3 w2; specialize (S 0%nat); run; lia|].
    intro n. subst w3 w2. run. apply S. }
  destruct choices as [choices|].
  2:{ apply (F _ w3 []); [exact P3 | reflexivity | reflexivity]. }
  do 3 eexists. exists []. split; [reflexivity|].
  pose proof (passes_trans _ _ _ _ _ P2 P3) as P23.
  split; [exact P23|]. split; [reflexivity|]. split; [reflexivity|].
  intros S. subst w3 w2 t0. run.
  pose proof (S 0%nat). pose proof (S 1%nat). run. lia.
Qed.

Arguments OpenAIClient.chatCompletion : simpl never.

(** *** Synthesis and playback *)

Lemma synthesize_ok (txt : string) (w : World) (e : TTSEngineObj)
    (a : AudioContext) :
  ttsEngineRef w = Some e -> tts_isLoaded e = true ->
  tts_audioContext e = Some a ->
  exists buf lat w',
    MockTTSEngine.synthesize txt w = (Normal (buf, lat), w')
    /\ passes w [] w'
    /\ 0 <= frames buf /\ sampleRate buf = 22050
    /\ (steady w -> 0 <= lat <= clock w' - clock w).
Proof.
  intros R L C. unfold MockTTSEngine.synthesize, MockTTSEngine.this. run.
  rewrite R, L, C. run.
  pose proof (random_range (randoms w 0%nat)) as K.
  pose proof (scaled_nonneg _ 1500 (proj1 K) ltac:(lia)) as K'.
  do 3 eexists. split; [reflexivity|]. split; [|split; [|split]].
  - split; [reflexivity | split; [symmetry; apply app_nil_r|]].
    intros S. split; [pose proof (S 0%nat); pose proof (S 1%nat); run; lia|].
    intro n. run. apply S.
  - run. cbn [frames]. apply Z.div_pos; lia.
  - reflexivity.
  - intros S. pose proof (S 0%nat). pose proof (S 1%nat). run. lia.
Qed.

Lemma synthesize_fails (txt : string) (w : World) (e : TTSEngineObj) :
  ttsEngineRef w = Some e ->
  tts_isLoaded e = false \/ tts_audioContext e = None ->
  exists ex w',
    MockTTSEngine.synthesize txt w = (Thrown ex, w') /\ passes w [] w'.
Proof.
  intros R H. unfold MockTTSEngine.synthesize, MockTTSEngine.this. run.
  rewrite R. run.
  destruct (tts_isLoaded e) eqn:L; run.
  2:{ do 2 eexists. split; [reflexivity | apply passes_refl]. }
  destruct H as [H|H]; [discriminate|]. rewrite H.
  pose proof (random_range (randoms w 0%nat)) as K.
  pose proof (scaled_nonneg _ 1500 (proj1 K) ltac:(lia)) as K'.
  do 2 eexists. split; [reflexivity|].
  split; [reflexivity | split; [symmetry; apply app_nil_r|]].
  intros S. split; [pose proof (S 0%nat); run; lia|].
  intro n. run. apply S.
Qed.

Lemma playAudio_spec (buf : AudioBuffer) (w : World) (e : TTSEngineObj) :
  ttsEngineRef w = Some e -> 0 <= frames buf -> sampleRate buf = 22050 ->
  exists w' evs,
    MockTTSEngine.playAudio buf w = (Normal tt, w')
    /\ passes w evs w' /\ shown evs = [] /\ fetched evs = [].
Proof.
  intros R F Q. unfold MockTTSEngine.playAudio, MockTTSEngine.this. run.
  rewrite R. run.
  destruct (tts_audioContext e); run.
  2:{ exists w, []. split; [reflexivity|]. split; [apply passes_refl|].
      split; reflexivity. }
  eexists. exists [AudioStarted buf]. split; [reflexivity|].
  split; [|split; reflexivity].
  split; [reflexivity | split; [reflexivity|]].
  intros S. split; [|intro n; run; apply S].
  run. rewrite Q.
  assert (0 <= frames buf * 1000 / 22050) by (apply Z.div_pos; lia). lia.
Qed.

Arguments MockTTSEngine.synthesize : simpl never.
Arguments MockTTSEngine.playAudio : simpl never.

(** *** The reply *)

Lemma handleTranscript_complete_spec (r : Render) (text : string)
    (um : Message) (apiStartTime : Z) (w : World) :
  exists reply api w' evs,
    handleTranscript_complete r text um apiStartTime w
    = (Normal (reply, api), w')
    /\ passes w evs w' /\ shown evs = []
    /\ repliedBy r w text um reply evs
    /\ (steady w -> apiStartTime <= clock w ->
        0 <= api <= clock w' - apiStartTime).
Proof.
  unfold handleTranscript_complete, repliedBy. run.
  assert (Off : exists reply api w' evs,
             (let (c, w') := getOfflineResponse text
                               (with_clock (clock w + 500) w) in
              match c with
              | Normal a =>
                  (Normal (a, clock w' + ticks w' 0%nat - apiStartTime),
                   with_clock (clock w' + ticks w' 0%nat)
                     (with_ticks (fun n => ticks w' (S n)) w'))
              | Thrown e => (Thrown e, w')
              end) = (Normal (reply, api), w')
             /\ passes w evs w' /\ shown evs = []
             /\ (fetched evs = []
                 /\ exists v, settled w v
                      /\ fst (getOfflineResponse text v) = Normal reply)
             /\ (steady w -> apiStartTime <= clock w ->
                 0 <= api <= clock w' - apiStartTime)).
  { destruct (getOfflineResponse_spec text (with_clock (clock w + 500) w))
      as (reply & w1 & E & P).
    rewrite E.
    assert (P0 : passes w [] (with_clock (clock w + 500) w)).
    { split; [reflexivity | split; [symmetry; apply app_nil_r|]].
      intros S. split; [run; lia | intro n; run; apply S]. }
    set (w2 := with_clock _ _).
    assert (P2 : passes w1 [] w2).
    { split; [reflexivity | split; [symmetry; apply app_nil_r|]].
      intros S. split; [pose proof (S 0%nat); subst w2; run; lia|].
      intro n. subst w2. run. apply S. }
    pose proof (passes_trans _ _ _ _ _ (passes_trans _ _ _ _ _ P0 P) P2) as PP.
    do 3 eexists. exists []. split; [reflexivity|].
    split; [exact PP|]. split; [reflexivity|].
    split.
    - split; [reflexivity|]. eexists. rewrite E.
      split; [repeat split | reflexivity].
    - intros S A. destruct P0 as (_ & _ & O0). destruct (O0 S) as [L0 S0].
      destruct P as (_ & _ & O1). destruct (O1 S0) as [L1 S1].
      pose proof (S1 0%nat). subst w2. run. lia. }
  destruct (r_isOnline r); [|exact Off].
  destruct (openaiClientRef w) as [c|]; [|exact Off].
  destruct (chatCompletion_spec c (r_messages r ++ [um]) w)
    as (reply & lat & w' & evs & E & P & Sh & Fe & L).
  exists reply, lat, w', (Fetched (OpenAIClient.request c (r_messages r ++ [um]))
                          :: evs).
  split; [exact E|]. split; [exact P|]. split; [exact Sh|].
  split.
  - split; [cbn [fetched flat_map app]; fold (fetched evs); rewrite Fe;
            reflexivity|].
    exists w, lat. rewrite E. split; [repeat split | reflexivity].
  - intros S A. specialize (L S). lia.
Qed.

Arguments handleTranscript_complete : simpl never.

(** *** Synthesis, playback and metrics inside [handleTranscript] *)

Lemma tts_cases (r : Render) (w : World) :
  ttsWorks r w \/ ttsFails r w \/ ttsSkipped r w.
Proof.
  unfold ttsWorks, ttsFails, ttsSkipped.
  destruct (r_isTTSLoaded r); [|auto].
  destruct (ttsEngineRef w) as [e|]; [|auto].
  destruct (tts_isLoaded e) eqn:L; [|right; left; eauto].
  destruct (tts_audioContext e) as [a|] eqn:C; [|right; left; eauto].
  left. eauto 6.
Qed.

Lemma speak_works (r : Render) (stt t0 : Z) (reply : string) (api : Z)
    (w : World) :
  ttsWorks r w ->
  exists tts pb total w',
    handleTranscript_speak r stt t0 reply api w = (Normal tt, w')
    /\ messages w' = messages w
    /\ performanceMetrics w'
       = Some {| sttLatency := stt; apiLatency := api; ttsLatency := tts;
                 totalLatency := total; playbackStart := pb |}
    /\ isPlaying w' = false
    /\ currentStatus w' = "Ready to chat!"%string
    /\ shown (trace w')
       = shown (trace w)
         ++ [StatusShown "Playing audio..."; PlayingShown true;
             PlayingShown false; StatusShown "Ready to chat!"]
    /\ fetched (trace w') = fetched (trace w)
    /\ (steady w -> 0 <= tts /\ clock w - t0 + tts <= pb /\ pb <= total).
Proof.
  intros (T & e & a & R & L & C).
  unfold handleTranscript_speak. run. rewrite R, T. run.
  match goal with
  | |- context [MockTTSEngine.synthesize reply ?v] =>
      destruct (synthesize_ok reply v e a R L C)
        as (buf & tts & w1 & E & P1 & Fr & Sr & L1);
      set (wa := v) in *
  end.
  rewrite E. run.
  assert (R1 : ttsEngineRef w1 = Some e).
  { field P1 ttsEngineRef. subst wa. run. congruence. }
  match goal with
  | |- context [MockTTSEngine.playAudio buf ?v] =>
      destruct (playAudio_spec buf v e) as (w2 & evs & E2 & P2 & Sh & Fe);
      [run; exact R1 | exact Fr | exact Sr |];
      set (wb := v) in *
  end.
  rewrite E2. run.
  do 4 eexists. split; [reflexivity|]. run.
  field P1 messages. field P2 messages.
  destruct P1 as (_ & T1 & O1). destruct P2 as (_ & T2 & O2).
  subst wa wb. run.
  split; [congruence|]. split; [reflexivity|]. split; [reflexivity|].
  split; [reflexivity|].
  rewrite T2, T1.
  repeat rewrite shown_app. repeat rewrite fetched_app.
  rewrite Sh, Fe, app_nil_r. cbn [shown filter fetched flat_map app].
  repeat rewrite app_nil_r.
  split; [repeat rewrite <- app_assoc; reflexivity|].
  split; [reflexivity|].
  intros St.
  assert (Sa : forall n, 0 <= ticks w (S n)) by (intro n; apply St).
  destruct (O1 Sa) as [La S1]. specialize (L1 Sa). run.
  assert (Sb : forall n, 0 <= ticks w1 (S n)) by (intro n; apply S1).
  destruct (O2 Sb) as [Lb S2]. run.
  pose proof (St 0%nat). pose proof (S1 0%nat). pose proof (S2 0%nat). lia.
Qed.

Lemma speak_fails (r : Render) (stt t0 : Z) (reply : string) (api : Z)
    (w : World) :
  ttsFails r w ->
  exists w',
    handleTranscript_speak r stt t0 reply api w = (Normal tt, w')
    /\ messages w' = messages w
    /\ performanceMetrics w' = performanceMetrics w
    /\ isPlaying w' = isPlaying w
    /\ currentStatus w' = ttsErrorStatus
    /\ shown (trace w') = shown (trace w) ++ [StatusShown ttsErrorStatus]
    /\ fetched (trace w') = fetched (trace w).
Proof.
  intros (T & e & R & H).
  unfold handleTranscript_speak. run. rewrite R, T. run.
  match goal with
  | |- context [MockTTSEngine.synthesize reply ?v] =>
      destruct (synthesize_fails reply v e R H) as (ex & w1 & E & P1)
  end.
  rewrite E. run.
  eexists. split; [reflexivity|]. run.
  field P1 messages. field P1 performanceMetrics. field P1 isPlaying.
  destruct P1 as (_ & T1 & _). run.
  rewrite T1, app_nil_r.
  repeat rewrite shown_app. repeat rewrite fetched_app.
  cbn [shown filter fetched flat_map app]. repeat rewrite app_nil_r.
  repeat split; assumption || reflexivity.
Qed.

Lemma speak_skipped (r : Render) (stt t0 : Z) (reply : string) (api : Z)
    (w : World) :
  ttsSkipped r w ->
  handleTranscript_speak r stt t0 reply api w = (Normal tt, w).
Proof.
  intros H. unfold handleTranscript_speak. run.
  destruct (ttsEngineRef w) eqn:R; [|reflexivity].
  destruct H as [H|H]; [rewrite H; reflexivity | congruence].
Qed.

Lemma speak_total (r : Render) (stt t0 : Z) (reply : string) (api : Z)
    (w : World) :
  exists w', handleTranscript_speak r stt t0 reply api w = (Normal tt, w').
Proof.
  destruct (tts_cases r w) as [H|[H|H]].
  - destruct (speak_works r stt t0 reply api w H) as (? & ? & ? & w' & E & _).
    eauto.
  - destruct (speak_fails r stt t0 reply api w H) as (w' & E & _). eauto.
  - rewrite (speak_skipped r stt t0 reply api w H). eauto.
Qed.

Arguments handleTranscript_speak : simpl never.

(** *** A run of [handleTranscript], up to synthesis *)

(** Every run gets a reply: it reaches the synthesis block in a world [w1]
    that holds the user turn and the reply, and ends with whatever that
    block leaves, [isProcessing] cleared; the [catch] block is not
    entered. *)
Lemma handleTranscript_run (r : Render) (text : string) (stt : Z) (w : World) :
  exists t1 t2 reply api evs w1 w2,
    let t0 := clock w + ticks w 0%nat in
    handleTranscript r text stt w = (Normal tt, with_isProcessing false w2)
    /\ handleTranscript_speak r stt t0 reply api w1 = (Normal tt, w2)
    /\ passes
         (with_currentStatus "Synthesizing speech..."
            (with_messages
               (messages w ++ [userTurn text t1; assistantTurn reply t2]) w))
         evs w1
    /\ shown evs = [StatusShown "Getting AI response...";
                    StatusShown "Synthesizing speech..."]
    /\ repliedBy r w text (userTurn text t1) reply evs
    /\ (steady w -> 0 <= api /\ api <= clock w1 - t0).
Proof.
  unfold handleTranscript. run.
  match goal with
  | |- context [handleTranscript_complete r text ?um ?ast ?v] =>
      destruct (handleTranscript_complete_spec r text um ast v)
        as (reply & api & wc & evs & E & P & Sh & RB & L);
      set (wa := v) in *
  end.
  rewrite E. run.
  match goal with
  | |- context [handleTranscript_speak r stt ?t0 reply api ?v] =>
      destruct (speak_total r stt t0 reply api v) as (w2 & E2);
      set (w1 := v) in *
  end.
  rewrite E2. run.
  exists (clock w + ticks w 0%nat + ticks w 1%nat).
  exists (clock wc + ticks wc 0%nat).
  exists reply, api.
  exists ([StatusShown "Getting AI response..."] ++ evs
          ++ [StatusShown "Synthesizing speech..."]).
  exists w1, w2.
  split; [reflexivity|]. split; [exact E2|].
  field P messages. field P openaiClientRef.
  destruct P as (C & T & O).
  split; [|split; [|split]].
  - split; [|split].
    + subst w1 wa. run.
      transitivity
        (with_messages
           (messages w
            ++ [userTurn text (clock w + ticks w 0%nat + ticks w 1%nat);
                assistantTurn reply (clock wc + ticks wc 0%nat)])
           (with_currentStatus "Synthesizing speech..." (component wc))).
      * apply world_ext; run; try reflexivity.
        rewrite E0, <- app_assoc. reflexivity.
      * run. rewrite C. apply world_ext; run; reflexivity.
    + subst w1 wa. run. rewrite T. run.
      repeat rewrite <- app_assoc. reflexivity.
    + intros St. subst w1 wa. unfold onward, steady in *. run.
      assert (Sa : forall n, 0 <= ticks w (S (S (S n))))
        by (intro n; apply St).
      destruct (O Sa) as [Lc Sc].
      pose proof (St 0%nat). pose proof (St 1%nat). pose proof (St 2%nat).
      pose proof (Sc 0%nat).
      split; [lia | intro n; apply Sc].
  - repeat rewrite shown_app. rewrite Sh. reflexivity.
  - unfold repliedBy, settled in *. subst wa. run.
    destruct (r_isOnline r); [destruct (openaiClientRef w)|];
      cbn [fetched flat_map app]; repeat rewrite fetched_app;
      cbn [fetched flat_map app]; destruct RB as [F X]; rewrite F;
      split; try reflexivity; exact X.
  - intros St. subst w1 wa. unfold onward, steady in *. run.
    assert (Sa : forall n, 0 <= ticks w (S (S (S n))))
      by (intro n; apply St).
    destruct (O Sa) as [Lc Sc].
    assert (A : clock w + ticks w 0%nat + ticks w 1%nat + ticks w 2%nat
                <= clock w + ticks w 0%nat + ticks w 1%nat + ticks w 2%nat)
      by lia.
    specialize (L Sa A).
    pose proof (St 0%nat). pose proof (St 1%nat). pose proof (St 2%nat).
    pose proof (Sc 0%nat). lia.
Qed.

(** The synthesis block touches neither the store nor the network. *)
Lemma speak_frame (r : Render) (stt t0 : Z) (reply : string) (api : Z)
    (w w' : World) :
  handleTranscript_speak r stt t0 reply api w = (Normal tt, w') ->
  messages w' = messages w /\ fetched (trace w') = fetched (trace w).
Proof.
  intros E. destruct (tts_cases r w) as [H|[H|H]].
  - destruct (speak_works r stt t0 reply api w H)
      as (? & ? & ? & v & E' & M & _ & _ & _ & _ & F & _).
    rewrite E in E'. injection E' as <-. auto.
  - destruct (speak_fails r stt t0 reply api w H)
      as (v & E' & M & _ & _ & _ & _ & F).
    rewrite E in E'. injection E' as <-. auto.
  - rewrite (speak_skipped r stt t0 reply api w H) in E.
    injection E as <-. auto.
Qed.

(** ** Sample worlds for the scenarios *)

Lemma scenarioWorld_steady : steady scenarioWorld.
Proof. intro n. simpl. lia. Defined.

Lemma scenarioWorld_ttsWorks : ttsWorks (render scenarioWorld) scenarioWorld.
Proof.
  split; [reflexivity|]. do 2 eexists. repeat split; reflexivity.
Defined.

(** ** C1: latencies of a full run *)

(** C1, as stated, fails: in the scenario of the specification, with a
    transcription that took 1500 ms, the published total is 1510 ms, less
    than the 2002 ms the three stage latencies add up to, and playback
    starts 509 ms into the run, less than the 1501 ms of transcription
    plus completion.  The run's clock starts in [handleTranscript], once
    the transcript is there. *)
Lemma total_latency_leaves_out_transcription :
  let w' := exec (handleTranscript (render scenarioWorld)
                    "Hello, how are you today?" 1500) scenarioWorld in
  let pm := {| sttLatency := 1500; apiLatency := 1; ttsLatency := 501;
               totalLatency := 1510; playbackStart := 509 |} in
  performanceMetrics w' = Some pm
  /\ totalLatency pm < sttLatency pm + apiLatency pm + ttsLatency pm
  /\ playbackStart pm < sttLatency pm + apiLatency pm.
Proof. vm_compute. repeat split; reflexivity. Qed.

(** C1, amended: a run in which synthesis and playback go through
    publishes a snapshot that carries the transcription latency it was
    handed, and in which [totalLatency >= apiLatency + ttsLatency] and
    [playbackStart >= apiLatency + ttsLatency] (so [>= apiLatency]), on a
    clock that does not run backwards. *)
Theorem handleTranscript_latencies (r : Render) (text : string) (stt : Z)
    (w : World) :
  steady w -> ttsWorks r w ->
  exists pm,
    performanceMetrics (exec (handleTranscript r text stt) w) = Some pm
    /\ sttLatency pm = stt
    /\ 0 <= apiLatency pm /\ 0 <= ttsLatency pm
    /\ apiLatency pm + ttsLatency pm <= totalLatency pm
    /\ apiLatency pm + ttsLatency pm <= playbackStart pm
    /\ playbackStart pm <= totalLatency pm.
Proof.
  intros St (T & e & a & R & L & C).
  destruct (handleTranscript_run r text stt w)
    as (t1 & t2 & reply & api & evs & w1 & w2 & E & E2 & P & Sh & RB & La).
  cbv zeta in *.
  assert (W : ttsWorks r w1).
  { split; [exact T|]. exists e, a. field P ttsEngineRef.
    repeat split; congruence. }
  destruct (speak_works r stt (clock w + ticks w 0%nat) reply api w1 W)
    as (tts & pb & total & v & E3 & _ & PM & _ & _ & _ & _ & Lt).
  rewrite E2 in E3. injection E3 as <-.
  unfold exec. rewrite E. run. rewrite PM.
  eexists. split; [reflexivity|]. cbn [sttLatency apiLatency ttsLatency
    totalLatency playbackStart].
  destruct P as (_ & _ & O). destruct (O St) as [_ S1].
  specialize (Lt S1). specialize (La St). lia.
Qed.

Lemma handleTranscript_latencies_witness :
  exists pm,
    performanceMetrics
      (exec (handleTranscript (render scenarioWorld)
               "Hello, how are you today?" 1500) scenarioWorld) = Some pm
    /\ sttLatency pm = 1500
    /\ 0 <= apiLatency pm /\ 0 <= ttsLatency pm
    /\ apiLatency pm + ttsLatency pm <= totalLatency pm
    /\ apiLatency pm + ttsLatency pm <= playbackStart pm
    /\ playbackStart pm <= totalLatency pm.
Proof.
  apply handleTranscript_latencies;
    [exact scenarioWorld_steady | exact scenarioWorld_ttsWorks].
Defined.

(** ** C2: a transcription that fails *)




(** ** C3: one utterance, two effects *)

(** C3 fails on the code: the render that sees the utterance runs both
    effects with that render's [audioBlob]; [resetAudio] in the first only
    schedules the next render.  Each posts the request, and the worker has
    two transcriptions pending for the one utterance. *)
Lemma duplicate_effect_posts_request_twice :
  let w := utteranceReadyWorld in
  let w' := exec (commitAudioBlob (render w)) w in
  option_map ww_timers (whisperWorkerRef w) = Some []
  /\ option_map (fun o => List.length (ww_timers o)) (whisperWorkerRef w')
     = Some 2%nat
  /\ audioBlob w' = None /\ isProcessing w' = true.
Proof. vm_compute. repeat split; reflexivity. Qed.

(** The same for every world: whenever the guard of the effects holds, the
    commit leaves exactly two more timers pending than it found. *)
Lemma commitAudioBlob_schedules_two (r : Render) (w : World) (b : Blob)
    (o : WhisperWorkerObj) :
  r_audioBlob r = Some b -> r_isModelLoaded r = true ->
  whisperWorkerRef w = Some o -> ww_isLoaded o = true ->
  exists s1 d1 s2 d2 o',
    whisperWorkerRef (exec (commitAudioBlob r) w) = Some o'
    /\ ww_timers o' = ww_timers o ++ [(s1, d1); (s2, d2)].
Proof.
  intros B Ld R L.
  unfold commitAudioBlob, effect_initializeServices, effect_processAudioBlob,
    resetAudio, MockWhisperWorker.postMessage, MockWhisperWorker.this,
    MockWhisperWorker.update, transcribeRequest.
  cbn [type audio]. run. rewrite B, Ld.
  repeat (first [rewrite R | rewrite L]; run;
          cbn [ww_isLoaded ww_timers ww_onmessage]).
  do 5 eexists. split; [reflexivity|]. cbn [ww_timers].
  rewrite <- app_assoc. reflexivity.
Qed.

(** ** C4: synthesis fails after a reply *)

(** C4: when synthesis is attempted and throws, the run still completes
    normally; the store gains the user turn and one assistant turn holding
    the reply, and no other turn; the status line shows the two progress
    messages and then the degraded one, never "Playing audio..." nor the
    error status, and the playing light is never switched; the run ends
    with [isProcessing] cleared and [isPlaying] as it was. *)
Theorem synthesis_failure_keeps_reply (r : Render) (text : string) (stt : Z)
    (w : World) :
  ttsFails r w ->
  let w' := exec (handleTranscript r text stt) w in
  completion (handleTranscript r text stt) w = Normal tt
  /\ (exists t1 t2 reply evs,
         messages w' = messages w ++ [userTurn text t1; assistantTurn reply t2]
         /\ repliedBy r w text (userTurn text t1) reply evs)
  /\ shown (trace w')
     = shown (trace w)
       ++ [StatusShown "Getting AI response...";
           StatusShown "Synthesizing speech...";
           StatusShown "TTS error, but response received"]
  /\ currentStatus w' = "TTS error, but response received"%string
  /\ isPlaying w' = isPlaying w
  /\ isProcessing w' = false.
Proof.
  intros (T & e & R & H).
  destruct (handleTranscript_run r text stt w)
    as (t1 & t2 & reply & api & evs & w1 & w2 & E & E2 & P & Sh & RB & _).
  cbv zeta in *.
  assert (F : ttsFails r w1).
  { split; [exact T|]. exists e. field P ttsEngineRef.
    split; [congruence | exact H]. }
  destruct (speak_fails r stt (clock w + ticks w 0%nat) reply api w1 F)
    as (v & E3 & M & _ & Pl & Cs & Tr & _).
  rewrite E2 in E3. injection E3 as <-.
  field P messages. field P isPlaying.
  destruct P as (_ & Tw & _). run.
  unfold completion, exec. rewrite E. run.
  split; [reflexivity|].
  split; [exists t1, t2, reply, evs; split; [congruence | exact RB]|].
  split.
  { rewrite Tr, Tw, shown_app, Sh, <- app_assoc. reflexivity. }
  split; [exact Cs|]. split; [congruence | reflexivity].
Qed.

Lemma synthesis_failure_keeps_reply_witness :
  let r := render ttsLoadingWorld in
  let w' := exec (handleTranscript r "What time is it?" 1200)
              ttsLoadingWorld in
  completion (handleTranscript r "What time is it?" 1200) ttsLoadingWorld
  = Normal tt
  /\ (exists t1 t2 reply evs,
         messages w'
         = messages ttsLoadingWorld
           ++ [userTurn "What time is it?" t1; assistantTurn reply t2]
         /\ repliedBy r ttsLoadingWorld "What time is it?"
              (userTurn "What time is it?" t1) reply evs)
  /\ shown (trace w')
     = shown (trace ttsLoadingWorld)
       ++ [StatusShown "Getting AI response...";
           StatusShown "Synthesizing speech...";
           StatusShown "TTS error, but response received"]
  /\ currentStatus w' = "TTS error, but response received"%string
  /\ isPlaying w' = isPlaying ttsLoadingWorld
  /\ isProcessing w' = false.
Proof.
  apply (synthesis_failure_keeps_reply (render ttsLoadingWorld)).
  split; [reflexivity|]. eexists. split; [reflexivity|]. left. reflexivity.
Defined.

(** For comparison, the run in which synthesis is not attempted at all
    (no engine object, or [isTTSLoaded] false in the render): the same two
    turns, but the status line is left at "Synthesizing speech...". *)
Lemma synthesis_skipped_leaves_status (r : Render) (text : string) (stt : Z)
    (w : World) :
  ttsSkipped r w ->
  let w' := exec (handleTranscript r text stt) w in
  (exists t1 t2 reply,
      messages w' = messages w ++ [userTurn text t1; assistantTurn reply t2])
  /\ currentStatus w' = "Synthesizing speech..."%string
  /\ isPlaying w' = isPlaying w
  /\ isProcessing w' = false.
Proof.
  intros H.
  destruct (handleTranscript_run r text stt w)
    as (t1 & t2 & reply & api & evs & w1 & w2 & E & E2 & P & _ & _ & _).
  cbv zeta in *.
  field P ttsEngineRef. field P messages. field P currentStatus.
  field P isPlaying.
  assert (K : ttsSkipped r w1).
  { destruct H as [H|H]; [left; exact H | right; congruence]. }
  rewrite (speak_skipped r stt _ reply api w1 K) in E2.
  injection E2 as <-.
  unfold exec. rewrite E. run.
  split; [exists t1, t2, reply; assumption|].
  repeat split; assumption.
Qed.

(** ** C5: off line, the remote end is left alone *)

(** An offline run: no request, and a reply by [getOfflineResponse]. *)
Lemma handleTranscript_offline (r : Render) (text : string) (stt : Z)
    (w : World) :
  r_isOnline r = false ->
  let w' := exec (handleTranscript r text stt) w in
  fetched (trace w') = fetched (trace w)
  /\ exists t1 t2 reply v,
       messages w' = messages w ++ [userTurn text t1; assistantTurn reply t2]
       /\ settled w v
       /\ completion (getOfflineResponse text) v = Normal reply.
Proof.
  intros Off.
  destruct (handleTranscript_run r text stt w)
    as (t1 & t2 & reply & api & evs & w1 & w2 & E & E2 & P & _ & RB & _).
  cbv zeta in *.
  destruct (speak_frame _ _ _ _ _ _ _ E2) as [M F].
  field P messages. destruct P as (_ & Tw & _). run.
  unfold repliedBy in RB. rewrite Off in RB. destruct RB as (Fe & v & Sv & Cv).
  unfold exec. rewrite E. run. split.
  - rewrite F, Tw, fetched_app, Fe. apply app_nil_r.
  - exists t1, t2, reply, v. split; [congruence|]. split; assumption.
Qed.

(** C5: with [isOnline] false in the render, the run sends no request, and
    the assistant turn it appends holds what [getOfflineResponse] returned
    for the transcript. *)
Theorem offline_run_stays_local (r : Render) (text : string) (stt : Z)
    (w : World) :
  r_isOnline r = false ->
  let w' := exec (handleTranscript r text stt) w in
  fetched (trace w') = fetched (trace w)
  /\ exists t1 t2 reply v,
       messages w' = messages w ++ [userTurn text t1; assistantTurn reply t2]
       /\ settled w v
       /\ completion (getOfflineResponse text) v = Normal reply.
Proof. exact (handleTranscript_offline r text stt w). Qed.

Lemma offline_run_stays_local_witness :
  let r := {| r_messages := []; r_apiKey := "sk-test"; r_isOnline := false;
              r_isModelLoaded := true; r_isTTSLoaded := true;
              r_isRecording := false; r_audioBlob := None |} in
  let w' := exec (handleTranscript r "What time is it?" 1200)
              scenarioWorld in
  fetched (trace w') = fetched (trace scenarioWorld)
  /\ exists t1 t2 reply v,
       messages w'
       = messages scenarioWorld
         ++ [userTurn "What time is it?" t1; assistantTurn reply t2]
       /\ settled scenarioWorld v
       /\ completion (getOfflineResponse "What time is it?") v
          = Normal reply.
Proof.
  apply (offline_run_stays_local
           {| r_messages := []; r_apiKey := "sk-test"; r_isOnline := false;
              r_isModelLoaded := true; r_isTTSLoaded := true;
              r_isRecording := false; r_audioBlob := None |}).
  reflexivity.
Defined.

(** ** C6: the two local responders *)

(** C6, as stated, fails for the responder of offline mode: it has no
    joke branch and no weather branch, and it has a date branch.  A
    request for a joke is echoed back, and so is a question about the
    weather; a question about the date, which the listed branches would
    echo, is answered with the date. *)
Lemma offline_responder_branches_differ :
  claimedBranch "Can you tell me a joke?" = Joke
  /\ completion (getOfflineResponse "Can you tell me a joke?") initialWorld
     = Normal (offlineEcho "Can you tell me a joke?")
  /\ claimedBranch "What's the weather like?" = Weather
  /\ completion (getOfflineResponse "What's the weather like?") initialWorld
     = Normal (offlineEcho "What's the weather like?")
  /\ claimedBranch "What is the date today?" = Echo
  /\ completion (getOfflineResponse "What is the date today?") initialWorld
     = Normal "Today's date is day 0"%string.
Proof. vm_compute. repeat split; reflexivity. Qed.

Lemma joke_index (k : Z) :
  0 <= k < two53 ->
  In (nth (Z.to_nat (scaled k 3)) OpenAIClient.jokes "undefined"%string)
     OpenAIClient.jokes.
Proof.
  intros Hk.
  pose proof (scaled_nonneg k 3 (proj1 Hk) ltac:(lia)) as L.
  pose proof (scaled_below k 3 Hk ltac:(lia)) as U.
  assert (C : scaled k 3 = 0 \/ scaled k 3 = 1 \/ scaled k 3 = 2) by lia.
  destruct C as [C|[C|C]]; rewrite C; cbn; auto.
Qed.

Lemma generateFallbackResponse_branches (input : string) (w : World) :
  exists reply,
    completion (OpenAIClient.generateFallbackResponse input) w = Normal reply
    /\ fallbackReply (claimedBranch input) input w reply.
Proof.
  unfold OpenAIClient.generateFallbackResponse, claimedBranch.
  destruct (includes (toLowerCase input) "hello"
            || includes (toLowerCase input) "hi");
    [eexists; split; reflexivity|].
  destruct (includes (toLowerCase input) "weather");
    [eexists; split; reflexivity|].
  destruct (includes (toLowerCase input) "joke").
  { eexists; split; [reflexivity|]. apply joke_index, random_range. }
  destruct (includes (toLowerCase input) "time");
    eexists; split; reflexivity.
Qed.

Lemma getOfflineResponse_branches (input : string) (w : World) :
  exists reply,
    completion (getOfflineResponse input) w = Normal reply
    /\ offlineReply (offlineBranch input) input w reply.
Proof.
  unfold getOfflineResponse, offlineBranch.
  destruct (includes (toLowerCase input) "hello"
            || includes (toLowerCase input) "hi");
    [eexists; split; reflexivity|].
  destruct (includes (toLowerCase input) "time");
    [eexists; split; reflexivity|].
  destruct (includes (toLowerCase input) "date");
    eexists; split; reflexivity.
Qed.

(** C6, amended: there are two local responders, each a function of the
    latest user text, the clock and [Math.random] alone.  The one used
    when the remote call fails, [generateFallbackResponse], is
    keyword-matched over greeting, weather, joke, time and echo; the one
    used off line, [getOfflineResponse], over greeting, time, date and
    echo.  Off line, "What time is it?" yields an assistant turn in the
    time format of that responder, and no request is sent. *)
Theorem local_responders_by_keyword (r : Render) (stt : Z) (w : World) :
  r_isOnline r = false ->
  (forall input v,
      exists reply,
        completion (OpenAIClient.generateFallbackResponse input) v
        = Normal reply
        /\ fallbackReply (claimedBranch input) input v reply)
  /\ (forall input v,
        exists reply,
          completion (getOfflineResponse input) v = Normal reply
          /\ offlineReply (offlineBranch input) input v reply)
  /\ (let w' := exec (handleTranscript r "What time is it?" stt) w in
      fetched (trace w') = fetched (trace w)
      /\ exists t1 t2 t,
           messages w'
           = messages w
             ++ [userTurn "What time is it?" t1;
                 assistantTurn
                   ("The current time is " ++ toLocaleTimeString w t) t2]).
Proof.
  intros Off.
  split; [exact generateFallbackResponse_branches|].
  split; [exact getOfflineResponse_branches|].
  destruct (handleTranscript_offline r "What time is it?" stt w Off)
    as (F & t1 & t2 & reply & v & M & (_ & St & _) & C).
  cbv zeta. split; [exact F|].
  destruct (getOfflineResponse_branches "What time is it?" v)
    as (reply' & C' & Sh).
  rewrite C in C'. injection C' as <-.
  change (offlineBranch "What time is it?") with TimeOfDay in Sh.
  cbn [offlineReply] in Sh. subst reply. rewrite St in M.
  exists t1, t2, (clock v + ticks v 0%nat). exact M.
Qed.

Lemma local_responders_by_keyword_witness :
  (forall input v,
      exists reply,
        completion (OpenAIClient.generateFallbackResponse input) v
        = Normal reply
        /\ fallbackReply (claimedBranch input) input v reply)
  /\ (forall input v,
        exists reply,
          completion (getOfflineResponse input) v = Normal reply
          /\ offlineReply (offlineBranch input) input v reply)
  /\ (let w' := exec (handleTranscript offlineRender "What time is it?" 1200)
                  scenarioWorld in
      fetched (trace w') = fetched (trace scenarioWorld)
      /\ exists t1 t2 t,
           messages w'
           = messages scenarioWorld
             ++ [userTurn "What time is it?" t1;
                 assistantTurn
                   ("The current time is "
                    ++ toLocaleTimeString scenarioWorld t) t2]).
Proof.
  apply (local_responders_by_keyword offlineRender 1200 scenarioWorld).
  reflexivity.
Defined.

(** ** C7: no capture before the model is loaded *)

(** C7: a click on the record button while nothing is being recorded and
    the render has [isModelLoaded] false shows the alert and does nothing
    else: [startRecording] is not called, and the world is the one before
    with the alert added to its trace. *)
Theorem begin_capture_rejected_until_loaded (r : Render) (w : World) :
  r_isRecording r = false -> r_isModelLoaded r = false ->
  let w' := exec (handleRecordingToggle r) w in
  completion (handleRecordingToggle r) w = Normal tt
  /\ w' = with_trace (trace w ++ [Alerted waitForModel]) w
  /\ isRecording w' = isRecording w
  /\ isProcessing w' = isProcessing w
  /\ audioBlob w' = audioBlob w
  /\ currentStatus w' = currentStatus w
  /\ messages w' = messages w.
Proof.
  intros Rec Ld. unfold handleRecordingToggle. rewrite Rec, Ld.
  cbv zeta. repeat split; reflexivity.
Qed.

Lemma begin_capture_rejected_until_loaded_witness :
  let w' := exec (handleRecordingToggle (render initialWorld)) initialWorld in
  completion (handleRecordingToggle (render initialWorld)) initialWorld
  = Normal tt
  /\ w' = with_trace (trace initialWorld ++ [Alerted waitForModel])
            initialWorld
  /\ isRecording w' = isRecording initialWorld
  /\ isProcessing w' = isProcessing initialWorld
  /\ audioBlob w' = audioBlob initialWorld
  /\ currentStatus w' = currentStatus initialWorld
  /\ messages w' = messages initialWorld.
Proof.
  apply (begin_capture_rejected_until_loaded (render initialWorld));
    reflexivity.
Defined.

(** ** C8: the snapshot of a run without playback *)

(** C8, as stated, fails: the first run of a component whose synthesis
    engine is not there yet publishes nothing, and the metrics stay
    [null]; so they do when synthesis is attempted and throws. *)
Lemma no_snapshot_without_playback :
  ttsSkipped (render initialWorld) initialWorld
  /\ performanceMetrics
       (exec (handleTranscript (render initialWorld)
                "Hello, how are you today?" 1500) initialWorld) = None
  /\ ttsFails (render ttsLoadingWorld) ttsLoadingWorld
  /\ performanceMetrics
       (exec (handleTranscript (render ttsLoadingWorld)
                "Hello, how are you today?" 1500) ttsLoadingWorld) = None.
Proof.
  split; [left; reflexivity|]. split; [vm_compute; reflexivity|].
  split; [|vm_compute; reflexivity].
  split; [reflexivity|]. eexists. split; [reflexivity|]. left. reflexivity.
Qed.

(** C8, amended: a run in which synthesis is not attempted, or is
    attempted and throws, publishes no snapshot: [performanceMetrics] is
    what it was before the run, the previous snapshot or [null]. *)
Theorem no_playback_keeps_metrics (r : Render) (text : string) (stt : Z)
    (w : World) :
  ttsFails r w \/ ttsSkipped r w ->
  performanceMetrics (exec (handleTranscript r text stt) w)
  = performanceMetrics w.
Proof.
  intros H.
  destruct (handleTranscript_run r text stt w)
    as (t1 & t2 & reply & api & evs & w1 & w2 & E & E2 & P & _ & _ & _).
  cbv zeta in *.
  field P ttsEngineRef. field P performanceMetrics.
  unfold exec. rewrite E. run.
  destruct H as [(T & e & R & H)|H].
  - assert (F : ttsFails r w1).
    { split; [exact T|]. exists e. split; [congruence | exact H]. }
    destruct (speak_fails r stt (clock w + ticks w 0%nat) reply api w1 F)
      as (v & E3 & _ & PM & _).
    rewrite E2 in E3. injection E3 as <-. congruence.
  - assert (K : ttsSkipped r w1).
    { destruct H as [H|H]; [left; exact H | right; congruence]. }
    rewrite (speak_skipped r stt _ reply api w1 K) in E2.
    injection E2 as <-. assumption.
Qed.

Lemma no_playback_keeps_metrics_witness :
  performanceMetrics
    (exec (handleTranscript (render initialWorld)
             "Hello, how are you today?" 1500) initialWorld)
  = performanceMetrics initialWorld.
Proof.
  apply (no_playback_keeps_metrics (render initialWorld)).
  right. left. reflexivity.
Defined.

(** ** C9: "hi" inside a word *)

(** C9: whenever the lower-cased text contains "hi", both responders
    return their greeting, and neither reads the clock nor draws a
    number. *)
Theorem hi_anywhere_is_greeted (input : string) (w : World) :
  includes (toLowerCase input) "hi" = true ->
  getOfflineResponse input w = (Normal offlineGreeting, w)
  /\ OpenAIClient.generateFallbackResponse input w
     = (Normal OpenAIClient.greeting, w).
Proof.
  intros H. unfold getOfflineResponse, OpenAIClient.generateFallbackResponse.
  rewrite H, orb_true_r. split; reflexivity.
Qed.

Lemma hi_anywhere_is_greeted_witness :
  getOfflineResponse "How does machine learning work?" initialWorld
  = (Normal offlineGreeting, initialWorld)
  /\ OpenAIClient.generateFallbackResponse "How does machine learning work?"
       initialWorld
     = (Normal OpenAIClient.greeting, initialWorld).
Proof.
  apply (hi_anywhere_is_greeted "How does machine learning work?").
  reflexivity.
Defined.

(** ** C10: a blank key does not remove the client *)

(** An online run with a client sends one request, under that client's
    key. *)
Lemma handleTranscript_online (r : Render) (text : string) (stt : Z)
    (w : World) (c : OpenAIClientObj) :
  r_isOnline r = true -> openaiClientRef w = Some c ->
  exists q,
    fetched (trace (exec (handleTranscript r text stt) w))
    = fetched (trace w) ++ [q]
    /\ authorization q = ("Bearer " ++ client_apiKey c)%string.
Proof.
  intros On Cl.
  destruct (handleTranscript_run r text stt w)
    as (t1 & t2 & reply & api & evs & w1 & w2 & E & E2 & P & _ & RB & _).
  cbv zeta in *.
  destruct (speak_frame _ _ _ _ _ _ _ E2) as [_ F].
  destruct P as (_ & Tw & _). run.
  unfold repliedBy in RB. rewrite On, Cl in RB. destruct RB as (Fe & _).
  unfold exec. rewrite E. run.
  eexists. split; [rewrite F, Tw, fetched_app, Fe; reflexivity|].
  reflexivity.
Qed.

(** What typing a key does to the client ref: a key that differs from the
    one in the input and is not blank replaces the client; any other leaves
    the ref as it is. *)
Lemma changeApiKey_client (key : string) (w : World) :
  openaiClientRef (exec (changeApiKey key) w)
  = if negb (String.eqb (apiKey w) key) && negb (blank key)
    then Some {| client_apiKey := key |}
    else openaiClientRef w.
Proof.
  unfold changeApiKey, effect_apiKey. run.
  destruct (String.eqb (apiKey w) key); run; [reflexivity|].
  unfold render. cbn [r_apiKey]. run. rewrite key_test.
  destruct (blank key); reflexivity.
Qed.

(** C10: typing a key that is empty or all white space leaves the very
    client that was configured; whatever key is typed, a client stays
    configured; and an online run after the blank key still sends its
    request under the old client's key. *)
Theorem blank_key_keeps_client (key : string) (w : World)
    (c : OpenAIClientObj) (r : Render) (text : string) (stt : Z) :
  blank key = true -> openaiClientRef w = Some c -> r_isOnline r = true ->
  let w1 := exec (changeApiKey key) w in
  openaiClientRef w1 = Some c
  /\ (forall key', exists c',
        openaiClientRef (exec (changeApiKey key') w) = Some c')
  /\ exists q,
       fetched (trace (exec (handleTranscript r text stt) w1))
       = fetched (trace w1) ++ [q]
       /\ authorization q = ("Bearer " ++ client_apiKey c)%string.
Proof.
  intros B Cl On. cbv zeta.
  assert (K : openaiClientRef (exec (changeApiKey key) w) = Some c).
  { rewrite changeApiKey_client, B, andb_false_r. exact Cl. }
  split; [exact K|]. split.
  - intros key'. rewrite changeApiKey_client, Cl.
    destruct (_ && _); eauto.
  - exact (handleTranscript_online r text stt _ c On K).
Qed.

Lemma blank_key_keeps_client_witness :
  let w1 := exec (changeApiKey "   ") keyedWorld in
  openaiClientRef w1 = Some {| client_apiKey := "sk-test" |}
  /\ (forall key', exists c',
        openaiClientRef (exec (changeApiKey key') keyedWorld) = Some c')
  /\ exists q,
       fetched (trace (exec (handleTranscript (render keyedWorld)
                               "What time is it?" 1200) w1))
       = fetched (trace w1) ++ [q]
       /\ authorization q = "Bearer sk-test"%string.
Proof.
  apply (blank_key_keeps_client "   " keyedWorld
           {| client_apiKey := "sk-test" |} (render keyedWorld));
    reflexivity.
Defined.

(** * Further properties of the collaborators and the component *)

(** ** OpenAIClient.chatCompletion *)

Lemma lastContent_snoc (msgs : list Message) (m : Message) :
  OpenAIClient.lastContent (msgs ++ [m]) = content m.
Proof.
  unfold OpenAIClient.lastContent. rewrite rev_app_distr. reflexivity.
Qed.

(** The [catch] block of [chatCompletion], step by step: the reply is the
    fallback responder's, for the content of the last message, and the
    latency counts from [startTime] to the reading after the pause. *)
Lemma chatCompletion_catch_reply (msgs : list Message) (startTime : Z)
    (e : Exn) (w : World) :
  exists reply v w',
    OpenAIClient.chatCompletion_catch msgs startTime e w
    = (Normal (reply,
               clock w + (800 + scaled (randoms w 0%nat mod two53) 1500)
               + ticks w 0%nat - startTime), w')
    /\ settled w v
    /\ completion
         (OpenAIClient.generateFallbackResponse
            (OpenAIClient.lastContent msgs)) v = Normal reply
    /\ trace w' = trace w ++ [ConsoleError "OpenAI API Error:"].
Proof.
  unfold OpenAIClient.chatCompletion_catch. run.
  match goal with
  | |- context [OpenAIClient.generateFallbackResponse ?i ?v] =>
      destruct (generateFallbackResponse_spec i v) as (reply & w' & E & Q);
      exists reply, v, w'
  end.
  rewrite E. split; [reflexivity|]. split; [repeat split|].
  split; [reflexivity|].
  destruct Q as (_ & T & _). rewrite T. run. apply app_nil_r.
Qed.

(** What [chatCompletion] does when the remote end fails. *)
Lemma chatCompletion_failure_path (c : OpenAIClientObj) (msgs : list Message)
    (w : World) :
  remoteFailed (server w (OpenAIClient.request c msgs)) = true ->
  exists reply lat v w',
    OpenAIClient.chatCompletion c msgs w = (Normal (reply, lat), w')
    /\ settled w v
    /\ completion
         (OpenAIClient.generateFallbackResponse
            (OpenAIClient.lastContent msgs)) v = Normal reply
    /\ trace w'
       = trace w ++ [Fetched (OpenAIClient.request c msgs);
                     ConsoleError "OpenAI API Error:"]
    /\ (steady w -> 800 <= lat).
Proof.
  intros H. unfold OpenAIClient.chatCompletion.
  set (q := OpenAIClient.request c msgs) in *.
  run.
  set (t0 := clock w + ticks w 0%nat).
  set (w2 := with_trace _ _).
  assert (F : forall e w3,
             settled w w3 -> trace w3 = trace w ++ [Fetched q] ->
             (steady w -> t0 <= clock w3 /\ 0 <= ticks w3 0%nat) ->
             exists reply lat v w',
               OpenAIClient.chatCompletion_catch msgs t0 e w3
               = (Normal (reply, lat), w')
               /\ settled w v
               /\ completion
                    (OpenAIClient.generateFallbackResponse
                       (OpenAIClient.lastContent msgs)) v = Normal reply
               /\ trace w' = trace w ++ [Fetched q;
                                         ConsoleError "OpenAI API Error:"]
               /\ (steady w -> 800 <= lat)).
  { intros e w3 (S1 & S2 & S3) T3 C3.
    destruct (chatCompletion_catch_reply msgs t0 e w3)
      as (reply & v & w' & E & (V1 & V2 & V3) & G & T).
    eexists reply, _, v, w'. split; [exact E|].
    split; [repeat split; congruence|]. split; [exact G|].
    split; [rewrite T, T3, <- app_assoc; reflexivity|].
    intros St. destruct (C3 St) as [L1 L2].
    pose proof (random_range (randoms w3 0%nat)) as R.
    pose proof (scaled_nonneg _ 1500 (proj1 R) ltac:(lia)). lia. }
  destruct (server w q) as [|status body]; run.
  { apply (F _ w2); [repeat split | reflexivity|].
    intros St. pose proof (St 1%nat). subst w2. run. lia. }
  cbn [remoteFailed] in H.
  destruct (ok status); run.
  2:{ apply (F _ w2); [repeat split | reflexivity|].
      intros St. pose proof (St 1%nat). subst w2. run. lia. }
  destruct body as [|[choices|]]; run; try discriminate.
  { apply (F _ w2); [repeat split | reflexivity|].
    intros St. pose proof (St 1%nat). subst w2. run. lia. }
  match goal with
  | |- context [OpenAIClient.chatCompletion_catch msgs t0 ?e ?v] =>
      apply (F e v); [repeat split | reflexivity|]
  end.
  intros St. pose proof (St 1%nat). pose proof (St 2%nat).
  subst w2. run. lia.
Qed.

(** X1: whatever the remote end does, [chatCompletion] returns a reply, and
    on the way sends exactly one request: to the completions endpoint, under
    the client's key, with the history reduced to role and content in
    order, a budget of 150 tokens and temperature 0.7.  It changes nothing
    of the component. *)
Theorem chatCompletion_sends_one_request (c : OpenAIClientObj)
    (msgs : list Message) (w : World) :
  exists reply lat w' q,
    OpenAIClient.chatCompletion c msgs w = (Normal (reply, lat), w')
    /\ component w' = component w
    /\ fetched (trace w') = fetched (trace w) ++ [q]
    /\ url q = "https://api.openai.com/v1/chat/completions"%string
    /\ authorization q = ("Bearer " ++ client_apiKey c)%string
    /\ req_messages q = stripped msgs
    /\ max_tokens q = 150 /\ temperature_tenths q = 7.
Proof.
  destruct (chatCompletion_spec c msgs w)
    as (reply & lat & w' & evs & E & (C & T & _) & _ & Fe & _).
  exists reply, lat, w', (OpenAIClient.request c msgs).
  split; [exact E|]. split; [exact C|].
  split; [|repeat split].
  rewrite T, fetched_app. cbn [fetched flat_map app]. fold (fetched evs).
  rewrite Fe. reflexivity.
Qed.

(** X2: a 2xx response whose JSON has [choices] is answered with the
    content of the first choice, or with "Sorry, I could not generate a
    response." when that content is missing or empty; nothing is logged,
    and the latency is the time between the two readings of the clock. *)
Theorem chatCompletion_success (c : OpenAIClientObj) (msgs : list Message)
    (w : World) (status : Z) (choices : list (option (option string))) :
  server w (OpenAIClient.request c msgs)
  = HttpResponse status (Json (Some choices)) ->
  ok status = true ->
  completion (OpenAIClient.chatCompletion c msgs) w
  = Normal (chosenReply choices, ticks w 1%nat)
  /\ trace (exec (OpenAIClient.chatCompletion c msgs) w)
     = trace w ++ [Fetched (OpenAIClient.request c msgs)].
Proof.
  intros H Ok. unfold OpenAIClient.chatCompletion. run.
  rewrite H. run. rewrite Ok. run.
  split; [|reflexivity]. f_equal. f_equal.
  - unfold chosenReply. destruct choices as [|[[txt|]|] ?]; reflexivity.
  - lia.
Qed.

Lemma chatCompletion_success_witness :
  completion
    (OpenAIClient.chatCompletion {| client_apiKey := "sk-test" |}
       [userTurn "Hello, how are you today?" 0]) scenarioWorld
  = Normal (chosenReply [Some (Some "Hello!"%string)],
            ticks scenarioWorld 1%nat)
  /\ trace (exec (OpenAIClient.chatCompletion
                    {| client_apiKey := "sk-test" |}
                    [userTurn "Hello, how are you today?" 0]) scenarioWorld)
     = trace scenarioWorld
       ++ [Fetched (OpenAIClient.request {| client_apiKey := "sk-test" |}
                      [userTurn "Hello, how are you today?" 0])].
Proof.
  apply (chatCompletion_success {| client_apiKey := "sk-test" |}
           [userTurn "Hello, how are you today?" 0] scenarioWorld 200);
    reflexivity.
Defined.

(** X3: when the remote end fails in any of the four ways, the failure is
    logged and the reply is the fallback responder's answer to the content
    of the last message of the history; on a clock that does not run
    backwards the reported latency is at least 800 ms. *)
Theorem chatCompletion_failure_falls_back (c : OpenAIClientObj)
    (msgs : list Message) (w : World) :
  remoteFailed (server w (OpenAIClient.request c msgs)) = true ->
  steady w ->
  exists reply lat v w',
    OpenAIClient.chatCompletion c msgs w = (Normal (reply, lat), w')
    /\ settled w v
    /\ completion
         (OpenAIClient.generateFallbackResponse
            (OpenAIClient.lastContent msgs)) v = Normal reply
    /\ trace w'
       = trace w ++ [Fetched (OpenAIClient.request c msgs);
                     ConsoleError "OpenAI API Error:"]
    /\ 800 <= lat.
Proof.
  intros H St.
  destruct (chatCompletion_failure_path c msgs w H)
    as (reply & lat & v & w' & E & S & G & T & L).
  exists reply, lat, v, w'. auto 6.
Qed.

Lemma keyedWorld_steady : steady keyedWorld.
Proof. intro n. cbn. lia. Defined.

Lemma chatCompletion_failure_falls_back_witness :
  exists reply lat v w',
    OpenAIClient.chatCompletion {| client_apiKey := "sk-test" |}
      [userTurn "Can you tell me a joke?" 0] keyedWorld
    = (Normal (reply, lat), w')
    /\ settled keyedWorld v
    /\ completion
         (OpenAIClient.generateFallbackResponse
            (OpenAIClient.lastContent [userTurn "Can you tell me a joke?" 0]))
         v = Normal reply
    /\ trace w'
       = trace keyedWorld
         ++ [Fetched (OpenAIClient.request {| client_apiKey := "sk-test" |}
                        [userTurn "Can you tell me a joke?" 0]);
             ConsoleError "OpenAI API Error:"]
    /\ 800 <= lat.
Proof.
  apply (chatCompletion_failure_falls_back {| client_apiKey := "sk-test" |}
           [userTurn "Can you tell me a joke?" 0] keyedWorld);
    [reflexivity | exact keyedWorld_steady].
Defined.

(** ** MockTTSEngine.synthesize *)

(** What [synthesize] returns on a loaded engine, step by step. *)
Lemma synthesize_result (txt : string) (w : World) (e : TTSEngineObj)
    (a : AudioContext) :
  ttsEngineRef w = Some e -> tts_isLoaded e = true ->
  tts_audioContext e = Some a ->
  exists w',
    MockTTSEngine.synthesize txt w
    = (Normal ({| numberOfChannels := 1;
                  frames := 2205 * Z.max 10 (Z.of_nat (String.length txt));
                  sampleRate := 22050 |},
               500 + scaled (randoms w 0%nat mod two53) 1500
               + ticks w 1%nat), w')
    /\ passes w [] w'.
Proof.
  intros R L C. unfold MockTTSEngine.synthesize, MockTTSEngine.this. run.
  rewrite R, L, C. run.
  pose proof (random_range (randoms w 0%nat)) as K.
  pose proof (scaled_nonneg _ 1500 (proj1 K) ltac:(lia)) as K'.
  replace (22050 * Z.max 10 (Z.of_nat (String.length txt)) / 10)
    with (2205 * Z.max 10 (Z.of_nat (String.length txt)))
    by (apply Z.div_unique_exact; lia).
  match goal with
  | |- context [Normal (_, ?l)] =>
      replace l
        with (500 + scaled (randoms w 0%nat mod two53) 1500 + ticks w 1%nat)
        by lia
  end.
  eexists. split.
  - reflexivity.
  - split; [reflexivity | split; [symmetry; apply app_nil_r|]].
    intros St. split; [pose proof (St 0%nat); pose proof (St 1%nat); run; lia|].
    intro n. run. apply St.
Qed.

(** X4: on a loaded engine with an audio context, [synthesize] returns a
    mono buffer at 22050 Hz that holds a tenth of a second per character of
    the text and never less than one second, leaves the component and the
    trace alone, and on a clock that does not run backwards reports a
    latency of at least 500 ms and less than 2000 ms plus the wait for the
    next reading. *)
Theorem synthesize_buffer (txt : string) (w : World) (e : TTSEngineObj)
    (a : AudioContext) :
  ttsEngineRef w = Some e -> tts_isLoaded e = true ->
  tts_audioContext e = Some a -> steady w ->
  exists buf lat w',
    MockTTSEngine.synthesize txt w = (Normal (buf, lat), w')
    /\ numberOfChannels buf = 1 /\ sampleRate buf = 22050
    /\ frames buf * 10
       = sampleRate buf * Z.max 10 (Z.of_nat (String.length txt))
    /\ sampleRate buf <= frames buf
    /\ component w' = component w /\ trace w' = trace w
    /\ 500 <= lat < 2000 + ticks w 1%nat.
Proof.
  intros R L C St.
  destruct (synthesize_result txt w e a R L C) as (w' & E & (Cm & T & _)).
  do 3 eexists. split; [exact E|]. cbn [numberOfChannels sampleRate frames].
  split; [reflexivity|]. split; [reflexivity|].
  split; [lia|]. split; [lia|]. split; [exact Cm|].
  split; [rewrite T; apply app_nil_r|].
  pose proof (St 1%nat).
  pose proof (random_range (randoms w 0%nat)) as K.
  pose proof (scaled_nonneg _ 1500 (proj1 K) ltac:(lia)).
  pose proof (scaled_below _ 1500 K ltac:(lia)). lia.
Qed.

Lemma synthesize_buffer_witness :
  exists buf lat w',
    MockTTSEngine.synthesize "Hello! I'm your AI assistant." scenarioWorld
    = (Normal (buf, lat), w')
    /\ numberOfChannels buf = 1 /\ sampleRate buf = 22050
    /\ frames buf * 10
       = sampleRate buf
         * Z.max 10 (Z.of_nat
                       (String.length "Hello! I'm your AI assistant."))
    /\ sampleRate buf <= frames buf
    /\ component w' = component scenarioWorld
    /\ trace w' = trace scenarioWorld
    /\ 500 <= lat < 2000 + ticks scenarioWorld 1%nat.
Proof.
  apply (synthesize_buffer "Hello! I'm your AI assistant." scenarioWorld
           {| tts_isLoaded := true; tts_audioContext := Some audioContext |}
           audioContext);
    [reflexivity | reflexivity | reflexivity | exact scenarioWorld_steady].
Defined.

(** ** MockWhisperWorker *)

Lemma transcript_index (k : Z) :
  0 <= k < two53 ->
  exists t,
    nth_error MockWhisperWorker.mockTranscripts (Z.to_nat (scaled k 8))
    = Some t
    /\ In t MockWhisperWorker.mockTranscripts.
Proof.
  intros Hk.
  pose proof (scaled_nonneg k 8 (proj1 Hk) ltac:(lia)) as L.
  pose proof (scaled_below k 8 Hk ltac:(lia)) as U.
  assert (C : (Z.to_nat (scaled k 8) < 8)%nat) by lia.
  destruct (nth_error MockWhisperWorker.mockTranscripts
              (Z.to_nat (scaled k 8))) as [t|] eqn:E.
  - exists t. split; [reflexivity|]. eapply nth_error_In. exact E.
  - apply nth_error_None in E. cbn in E. lia.
Qed.

(** X5: [postMessage] acts on nothing but a transcribe request that carries
    audio: a load request, any other type of message, and a transcribe
    request without audio leave the world as it is, whatever the state of
    the worker, even with no worker in the ref. *)
Theorem postMessage_ignores_other_messages (data : WhisperWorkerMessage)
    (w : World) :
  type data <> transcribe \/ audio data = None ->
  MockWhisperWorker.postMessage data w = (Normal tt, w).
Proof.
  intros H. unfold MockWhisperWorker.postMessage.
  destruct (type data) eqn:T; try reflexivity.
  destruct H as [H|H]; [congruence|]. rewrite H. reflexivity.
Qed.

Lemma postMessage_ignores_other_messages_witness :
  MockWhisperWorker.postMessage
    {| type := transcribe; audio := None; text := None; errorText := None;
       latency := None |} initialWorld
  = (Normal tt, initialWorld).
Proof.
  apply postMessage_ignores_other_messages. right. reflexivity.
Defined.

(** X6: on a loaded worker a transcribe request with audio sends nothing
    back at once; it arms exactly one timer, behind those already pending,
    started at the reading of the clock and with a delay of at least
    1000 ms and at most 3000 ms. *)
Theorem postMessage_arms_one_timer (b : Blob) (w : World)
    (o : WhisperWorkerObj) :
  whisperWorkerRef w = Some o -> ww_isLoaded o = true ->
  let w' := exec (MockWhisperWorker.postMessage (transcribeRequest b)) w in
  exists delay,
    whisperWorkerRef w'
    = Some {| ww_isLoaded := true; ww_onmessage := ww_onmessage o;
              ww_timers := ww_timers o
                           ++ [(clock w + ticks w 0%nat, delay)] |}
    /\ 1000 <= delay <= 3000
    /\ trace w' = trace w
    /\ completion (MockWhisperWorker.postMessage (transcribeRequest b)) w
       = Normal tt.
Proof.
  intros R L. cbv zeta.
  unfold MockWhisperWorker.postMessage, MockWhisperWorker.this,
    MockWhisperWorker.update, transcribeRequest. cbn [type audio]. run.
  rewrite R. run. rewrite L. run. rewrite R. run.
  pose proof (random_range (randoms w 0%nat)) as K.
  pose proof (scaled_nonneg _ 2000 (proj1 K) ltac:(lia)).
  pose proof (scaled_below _ 2000 K ltac:(lia)).
  eexists. split; [rewrite L; reflexivity|].
  split; [lia|]. split; reflexivity.
Qed.

Lemma postMessage_arms_one_timer_witness :
  let w' := exec (MockWhisperWorker.postMessage (transcribeRequest (blob 0)))
              listeningWorld in
  exists delay,
    whisperWorkerRef w'
    = Some {| ww_isLoaded := true; ww_onmessage := Some (callback 0);
              ww_timers := [] ++ [(clock listeningWorld
                                   + ticks listeningWorld 0%nat, delay)] |}
    /\ 1000 <= delay <= 3000
    /\ trace w' = trace listeningWorld
    /\ completion
         (MockWhisperWorker.postMessage (transcribeRequest (blob 0)))
         listeningWorld = Normal tt.
Proof.
  apply (postMessage_arms_one_timer (blob 0) listeningWorld
           {| ww_isLoaded := true; ww_onmessage := Some (callback 0);
              ww_timers := [] |}); reflexivity.
Defined.

(** X7: a transcribe request to a loaded worker with nothing pending,
    followed by its timer firing, hands the listener exactly one message:
    a transcript whose text is one of the eight canned sentences, never
    undefined, with its latency; without a listener the transcript is
    dropped.  No timer is left pending, and, the clock not running
    backwards, the latency is at least 1000 ms. *)
Theorem transcription_round_trip (b : Blob) (w : World)
    (o : WhisperWorkerObj) :
  whisperWorkerRef w = Some o -> ww_isLoaded o = true -> ww_timers o = [] ->
  steady w ->
  let w' := exec (MockWhisperWorker.postMessage (transcribeRequest b) ;;
                  MockWhisperWorker.transcribeTimerFires) w in
  exists t l,
    In t MockWhisperWorker.mockTranscripts
    /\ trace w'
       = trace w
         ++ match ww_onmessage o with
            | Some cb =>
                [OnMessage cb {| type := transcript; audio := None;
                                 text := Some t; errorText := None;
                                 latency := Some l |}]
            | None => []
            end
    /\ option_map ww_timers (whisperWorkerRef w') = Some []
    /\ 1000 <= l.
Proof.
  intros R L T St. cbv zeta.
  unfold MockWhisperWorker.postMessage, MockWhisperWorker.transcribeTimerFires,
    MockWhisperWorker.sendMessage, MockWhisperWorker.this,
    MockWhisperWorker.update, transcribeRequest. cbn [type audio]. run.
  rewrite R. run. rewrite L. run. rewrite R. run.
  cbn [ww_timers ww_isLoaded ww_onmessage]. rewrite T. cbn [app]. run.
  cbn [ww_timers ww_isLoaded ww_onmessage].
  destruct (transcript_index _ (random_range (randoms w 1%nat)))
    as (t & E & I).
  rewrite E.
  pose proof (random_range (randoms w 0%nat)) as K.
  pose proof (scaled_nonneg _ 2000 (proj1 K) ltac:(lia)).
  exists t. eexists. split; [exact I|].
  destruct (ww_onmessage o) as [cb|]; run.
  - split; [reflexivity|]. split; [reflexivity|].
    pose proof (St 1%nat). lia.
  - split; [symmetry; apply app_nil_r|]. split; [reflexivity|].
    pose proof (St 1%nat). lia.
Qed.

Lemma transcription_round_trip_witness :
  let w' := exec (MockWhisperWorker.postMessage (transcribeRequest (blob 0)) ;;
                  MockWhisperWorker.transcribeTimerFires) listeningWorld in
  exists t l,
    In t MockWhisperWorker.mockTranscripts
    /\ trace w'
       = trace listeningWorld
         ++ [OnMessage (callback 0)
               {| type := transcript; audio := None; text := Some t;
                  errorText := None; latency := Some l |}]
    /\ option_map ww_timers (whisperWorkerRef w') = Some []
    /\ 1000 <= l.
Proof.
  apply (transcription_round_trip (blob 0) listeningWorld
           {| ww_isLoaded := true; ww_onmessage := Some (callback 0);
              ww_timers := [] |});
    [reflexivity | reflexivity | reflexivity | intro n; cbn; lia].
Defined.

Ltac wk R L :=
  repeat first
    [ rewrite R | rewrite L | progress run
    | progress cbn [ww_isLoaded ww_onmessage ww_timers option_map] ].

(** X8: readiness of the worker is one-way.  Once the model is loaded, no
    method of the worker and no timer of it unloads it: not a request,
    whatever it carries, not a transcription coming due, not the load
    timer firing again; and the load timer loads whatever worker is
    there. *)
Theorem worker_stays_loaded (w : World) (data : WhisperWorkerMessage) :
  workerLoaded w = Some true ->
  workerLoaded (exec (MockWhisperWorker.postMessage data) w) = Some true
  /\ workerLoaded (exec MockWhisperWorker.transcribeTimerFires w) = Some true
  /\ workerLoaded (exec MockWhisperWorker.loadTimerFires w) = Some true
  /\ workerLoaded (exec (MockWhisperWorker.sendMessage data) w) = Some true.
Proof.
  unfold workerLoaded. intros H.
  destruct (whisperWorkerRef w) as [o|] eqn:R; [|discriminate].
  cbn [option_map] in H. injection H as L.
  unfold MockWhisperWorker.postMessage, MockWhisperWorker.transcribeTimerFires,
    MockWhisperWorker.loadTimerFires, MockWhisperWorker.sendMessage,
    MockWhisperWorker.this, MockWhisperWorker.update.
  repeat split.
  - destruct (type data); try (wk R L; reflexivity).
    destruct (audio data); wk R L; reflexivity.
  - wk R L. destruct (ww_timers o) as [|[s d] rest]; wk R L;
      [reflexivity|].
    destruct (ww_onmessage o); wk R L; reflexivity.
  - wk R L. destruct (ww_onmessage o); wk R L; reflexivity.
  - wk R L. destruct (ww_onmessage o); wk R L; reflexivity.
Qed.

Lemma worker_stays_loaded_witness :
  workerLoaded (exec (MockWhisperWorker.postMessage
                        (transcribeRequest (blob 0))) listeningWorld)
  = Some true
  /\ workerLoaded (exec MockWhisperWorker.transcribeTimerFires listeningWorld)
     = Some true
  /\ workerLoaded (exec MockWhisperWorker.loadTimerFires listeningWorld)
     = Some true
  /\ workerLoaded (exec (MockWhisperWorker.sendMessage
                           (transcribeRequest (blob 0))) listeningWorld)
     = Some true.
Proof.
  apply (worker_stays_loaded listeningWorld (transcribeRequest (blob 0))).
  reflexivity.
Defined.

(** ** The audio effects *)

Lemma commitAudioBlob_guarded (r : Render) (w : World) :
  effectGuard r w = false ->
  commitAudioBlob r w = (Normal tt, w).
Proof.
  unfold effectGuard, commitAudioBlob, effect_initializeServices,
    effect_processAudioBlob. intros H. run. cbv beta.
  destruct (r_audioBlob r); [|reflexivity].
  destruct (whisperWorkerRef w) eqn:R;
    [rewrite H; run; rewrite R; reflexivity | run; rewrite R; reflexivity].
Qed.

Lemma commitAudioBlob_resets (r : Render) (w : World) :
  effectGuard r w = true ->
  exists w',
    commitAudioBlob r w = (Normal tt, w')
    /\ audioBlob w' = None /\ isProcessing w' = true
    /\ currentStatus w' = "Processing speech..."%string
    /\ messages w' = messages w.
Proof.
  unfold effectGuard, commitAudioBlob, effect_initializeServices,
    effect_processAudioBlob, resetAudio, MockWhisperWorker.postMessage,
    MockWhisperWorker.sendMessage, MockWhisperWorker.this,
    MockWhisperWorker.update, transcribeRequest. cbn [type audio].
  intros H. run. cbv beta.
  destruct (r_audioBlob r) as [b|]; [|discriminate].
  destruct (whisperWorkerRef w) as [o|] eqn:R; [|discriminate].
  rewrite H.
  destruct (ww_isLoaded o) eqn:L; [|destruct (ww_onmessage o) eqn:Om];
    repeat first
      [ rewrite R | rewrite L | rewrite Om | progress run | progress cbv beta
      | progress cbn [ww_isLoaded ww_onmessage ww_timers option_map] ];
    (eexists; split; [reflexivity|]; repeat split; reflexivity).
Qed.

(** X9: the render that an utterance causes runs the effects, and the
    render that their [resetAudio] causes runs them again; that second
    pass does nothing.  Whatever the state, running the effects with the
    state they themselves left changes nothing, and neither pass throws. *)
Theorem audio_effects_settle (w : World) :
  let w' := exec (commitAudioBlob (render w)) w in
  completion (commitAudioBlob (render w)) w = Normal tt
  /\ commitAudioBlob (render w') w' = (Normal tt, w').
Proof.
  cbv zeta. destruct (effectGuard (render w) w) eqn:G.
  - destruct (commitAudioBlob_resets _ _ G) as (w' & E & A & _).
    unfold completion, exec. rewrite E. split; [reflexivity|].
    apply commitAudioBlob_guarded. unfold effectGuard, render.
    cbn [r_audioBlob fst snd]. rewrite A. reflexivity.
  - pose proof (commitAudioBlob_guarded _ _ G) as E.
    unfold completion, exec. rewrite E. split; [reflexivity|]. exact E.
Qed.

(** X10: the effects dispatch nothing and change nothing when the render
    holds no utterance, or the worker ref holds no worker, or the render
    has [isModelLoaded] false. *)
Theorem audio_effects_guard (r : Render) (w : World) :
  r_audioBlob r = None \/ whisperWorkerRef w = None
  \/ r_isModelLoaded r = false ->
  commitAudioBlob r w = (Normal tt, w).
Proof.
  intros H. apply commitAudioBlob_guarded. unfold effectGuard.
  destruct H as [H|[H|H]]; rewrite H;
    try reflexivity; destruct (r_audioBlob r); try reflexivity;
    destruct (whisperWorkerRef w); reflexivity.
Qed.

Lemma audio_effects_guard_witness :
  commitAudioBlob (render unloadedWorkerWorld)
    (with_whisperWorkerRef None unloadedWorkerWorld)
  = (Normal tt, with_whisperWorkerRef None unloadedWorkerWorld).
Proof.
  apply audio_effects_guard. right. left. reflexivity.
Defined.

(** ** Runs of [handleTranscript] *)

(** X11: every run of [handleTranscript] returns normally and leaves
    [isProcessing] false, whatever the remote end, the engines and the
    state it starts from. *)
Theorem handleTranscript_always_settles (r : Render) (text : string)
    (stt : Z) (w : World) :
  completion (handleTranscript r text stt) w = Normal tt
  /\ isProcessing (exec (handleTranscript r text stt) w) = false.
Proof.
  destruct (handleTranscript_run r text stt w)
    as (t1 & t2 & reply & api & evs & w1 & w2 & E & _).
  cbv zeta in *. unfold completion, exec. rewrite E. split; reflexivity.
Qed.

(** X12: a run in which synthesis and playback go through shows, in this
    order, "Getting AI response...", "Synthesizing speech...", "Playing
    audio...", the playing light on, the light off, "Ready to chat!", and
    nothing else on the status line; it ends with that status, the light
    off and [isProcessing] false. *)
Theorem full_run_display (r : Render) (text : string) (stt : Z) (w : World) :
  ttsWorks r w ->
  let w' := exec (handleTranscript r text stt) w in
  shown (trace w')
  = shown (trace w)
    ++ [StatusShown "Getting AI response...";
        StatusShown "Synthesizing speech...";
        StatusShown "Playing audio..."; PlayingShown true;
        PlayingShown false; StatusShown "Ready to chat!"]
  /\ currentStatus w' = "Ready to chat!"%string
  /\ isPlaying w' = false
  /\ isProcessing w' = false.
Proof.
  intros (T & e & a & R & L & C).
  destruct (handleTranscript_run r text stt w)
    as (t1 & t2 & reply & api & evs & w1 & w2 & E & E2 & P & Sh & _).
  cbv zeta in *.
  assert (W : ttsWorks r w1).
  { split; [exact T|]. exists e, a. field P ttsEngineRef.
    repeat split; congruence. }
  destruct (speak_works r stt (clock w + ticks w 0%nat) reply api w1 W)
    as (tts & pb & total & v & E3 & _ & _ & Pl & Cs & Tr & _).
  rewrite E2 in E3. injection E3 as <-.
  destruct P as (_ & Tw & _). run.
  unfold exec. rewrite E. run.
  split; [|repeat split; assumption].
  rewrite Tr, Tw, shown_app, Sh, <- app_assoc. reflexivity.
Qed.

Lemma full_run_display_witness :
  let w' := exec (handleTranscript (render scenarioWorld)
                    "Hello, how are you today?" 1500) scenarioWorld in
  shown (trace w')
  = shown (trace scenarioWorld)
    ++ [StatusShown "Getting AI response...";
        StatusShown "Synthesizing speech...";
        StatusShown "Playing audio..."; PlayingShown true;
        PlayingShown false; StatusShown "Ready to chat!"]
  /\ currentStatus w' = "Ready to chat!"%string
  /\ isPlaying w' = false
  /\ isProcessing w' = false.
Proof.
  apply (full_run_display (render scenarioWorld)).
  exact scenarioWorld_ttsWorks.
Defined.

Lemma handleTranscript_appends (r : Render) (text : string) (stt : Z)
    (w : World) :
  exists t1 t2 reply w',
    handleTranscript r text stt w = (Normal tt, w')
    /\ messages w' = messages w ++ [userTurn text t1; assistantTurn reply t2].
Proof.
  destruct (handleTranscript_run r text stt w)
    as (t1 & t2 & reply & api & evs & w1 & w2 & E & E2 & P & _).
  cbv zeta in *.
  destruct (speak_frame _ _ _ _ _ _ _ E2) as [M _].
  field P messages.
  exists t1, t2, reply, (with_isProcessing false w2).
  split; [exact E|]. run. congruence.
Qed.

(** X13: any number of runs in a row, from any store, all return, and
    together append two turns per run, alternating user and assistant,
    whose user turns hold the transcripts in the order of the runs. *)
Theorem runs_alternate (l : list (Render * string * Z)) (w : World) :
  exists added,
    completion (runs l) w = Normal tt
    /\ messages (exec (runs l) w) = messages w ++ added
    /\ map role added = exchanges (List.length l)
    /\ userContents added = map (fun x => snd (fst x)) l.
Proof.
  revert w. induction l as [|[[r text] stt] rest IH]; intros w.
  - exists []. repeat split. cbn. symmetry. apply app_nil_r.
  - destruct (handleTranscript_appends r text stt w)
      as (t1 & t2 & reply & w' & E & M).
    destruct (IH w') as (added & C & Ms & Rs & Us).
    exists ([userTurn text t1; assistantTurn reply t2] ++ added).
    unfold completion, exec in *. cbn [runs]. unfold bind. rewrite E.
    split; [exact C|]. split; [rewrite Ms, M, <- app_assoc; reflexivity|].
    split.
    + cbn [app map List.length exchanges]. rewrite Rs. reflexivity.
    + cbn [app map fst snd]. unfold userContents in *.
      cbn [flat_map role userTurn assistantTurn content app].
      rewrite Us. reflexivity.
Qed.

(** X14: the request an online run sends carries the history of the render
    that created the handler, reduced to role and content, followed by the
    new user turn; the store as it is when the run starts plays no part in
    it. *)
Theorem request_history_from_render (r : Render) (text : string)
    (stt : Z) (w : World) (c : OpenAIClientObj) :
  r_isOnline r = true -> openaiClientRef w = Some c ->
  exists q,
    fetched (trace (exec (handleTranscript r text stt) w))
    = fetched (trace w) ++ [q]
    /\ req_messages q = stripped (r_messages r) ++ [(user, text)].
Proof.
  intros On Cl.
  destruct (handleTranscript_run r text stt w)
    as (t1 & t2 & reply & api & evs & w1 & w2 & E & E2 & P & _ & RB & _).
  cbv zeta in *.
  destruct (speak_frame _ _ _ _ _ _ _ E2) as [_ F].
  destruct P as (_ & Tw & _). run.
  unfold repliedBy in RB. rewrite On, Cl in RB. destruct RB as (Fe & _).
  unfold exec. rewrite E. run.
  eexists. split; [rewrite F, Tw, fetched_app, Fe; reflexivity|].
  cbn [req_messages OpenAIClient.request]. unfold stripped.
  rewrite map_app. reflexivity.
Qed.

Lemma request_history_from_render_witness :
  exists q,
    fetched (trace (exec (handleTranscript (render scenarioWorld)
                            "Can you tell me a joke?" 1200) movedOnWorld))
    = fetched (trace movedOnWorld) ++ [q]
    /\ req_messages q
       = stripped (r_messages (render scenarioWorld))
         ++ [(user, "Can you tell me a joke?"%string)].
Proof.
  apply (request_history_from_render (render scenarioWorld)
           "Can you tell me a joke?" 1200 movedOnWorld
           {| client_apiKey := "sk-test" |}); reflexivity.
Defined.

(** X15: on line with a client, when the remote end fails whatever it is
    sent, the run still appends the user turn and one assistant turn, and
    that turn holds the fallback responder's answer to the transcript of
    this run, in the branch its keywords select; one request was sent and
    no error turn appears. *)
Theorem remote_failure_answers_the_transcript (r : Render) (text : string)
    (stt : Z) (w : World) (c : OpenAIClientObj) :
  r_isOnline r = true -> openaiClientRef w = Some c ->
  (forall q, remoteFailed (server w q) = true) ->
  let w' := exec (handleTranscript r text stt) w in
  exists t1 t2 reply v q,
    messages w' = messages w ++ [userTurn text t1; assistantTurn reply t2]
    /\ settled w v
    /\ fallbackReply (claimedBranch text) text v reply
    /\ fetched (trace w') = fetched (trace w) ++ [q].
Proof.
  intros On Cl Fail.
  destruct (handleTranscript_run r text stt w)
    as (t1 & t2 & reply & api & evs & w1 & w2 & E & E2 & P & _ & RB & _).
  cbv zeta in *.
  destruct (speak_frame _ _ _ _ _ _ _ E2) as [M F].
  field P messages. destruct P as (_ & Tw & _). run.
  unfold repliedBy in RB. rewrite On, Cl in RB.
  destruct RB as (Fe & v & lat & (V1 & V2 & V3) & Cv).
  destruct (chatCompletion_failure_path c
              (r_messages r ++ [userTurn text t1]) v)
    as (reply' & lat' & v' & w'' & Ev & (U1 & U2 & U3) & G & _).
  { rewrite V1. apply Fail. }
  unfold completion in Cv. rewrite Ev in Cv. injection Cv as -> ->.
  rewrite lastContent_snoc in G. cbn [content userTurn] in G.
  destruct (generateFallbackResponse_branches text v') as (reply2 & G2 & Sh).
  rewrite G in G2. injection G2 as <-.
  unfold exec. rewrite E. run.
  exists t1, t2, reply, v'. eexists.
  split; [congruence|]. split; [repeat split; congruence|].
  split; [exact Sh|]. rewrite F, Tw, fetched_app, Fe. reflexivity.
Qed.

Lemma remote_failure_answers_the_transcript_witness :
  let w' := exec (handleTranscript (render keyedWorld)
                    "What's the weather like?" 1200) keyedWorld in
  exists t1 t2 reply v q,
    messages w'
    = messages keyedWorld
      ++ [userTurn "What's the weather like?" t1; assistantTurn reply t2]
    /\ settled keyedWorld v
    /\ fallbackReply (claimedBranch "What's the weather like?")
         "What's the weather like?" v reply
    /\ fetched (trace w') = fetched (trace keyedWorld) ++ [q].
Proof.
  apply (remote_failure_answers_the_transcript (render keyedWorld)
           "What's the weather like?" 1200 keyedWorld
           {| client_apiKey := "sk-test" |}); reflexivity.
Defined.

(** ** The key input *)

(** X16: a key with a code unit that is not white space, typed over a
    different one, becomes the client's key exactly as typed, white space
    around it included, and the next online run sends it so in its
    [Authorization] header. *)
Theorem key_is_sent_as_typed (key : string) (w : World) (r : Render)
    (text : string) (stt : Z) :
  blank key = false -> String.eqb (apiKey w) key = false ->
  r_isOnline r = true ->
  let w1 := exec (changeApiKey key) w in
  openaiClientRef w1 = Some {| client_apiKey := key |}
  /\ exists q,
       fetched (trace (exec (handleTranscript r text stt) w1))
       = fetched (trace w1) ++ [q]
       /\ authorization q = ("Bearer " ++ key)%string.
Proof.
  intros B Ne On. cbv zeta.
  assert (K : openaiClientRef (exec (changeApiKey key) w)
              = Some {| client_apiKey := key |}).
  { rewrite changeApiKey_client, B, Ne. reflexivity. }
  split; [exact K|].
  exact (handleTranscript_online r text stt _ _ On K).
Qed.

Lemma key_is_sent_as_typed_witness :
  let w1 := exec (changeApiKey " sk-test ") readyWorld in
  openaiClientRef w1 = Some {| client_apiKey := " sk-test " |}
  /\ exists q,
       fetched (trace (exec (handleTranscript (render readyWorld)
                               "What time is it?" 1200) w1))
       = fetched (trace w1) ++ [q]
       /\ authorization q = "Bearer  sk-test "%string.
Proof.
  apply (key_is_sent_as_typed " sk-test " readyWorld (render readyWorld));
    reflexivity.
Defined.

(** ** The record button *)

(** X17: a click that the button lets through never reaches the alert:
    when the button is enabled, the click stops the recording if one is
    under way and starts one otherwise and shows the matching status; the
    trace gains these two events and no other, and the store is left
    alone. *)
Theorem enabled_button_never_alerts (w : World) :
  recordDisabled w = false ->
  exists w',
    handleRecordingToggle (render w) w = (Normal tt, w')
    /\ trace w'
       = trace w
         ++ (if isRecording w
             then [StopRecordingCalled;
                   StatusShown "Processing recording..."]
             else [StartRecordingCalled;
                   StatusShown "Listening... Click stop when done"])
    /\ messages w' = messages w /\ isProcessing w' = false.
Proof.
  unfold recordDisabled, isReady, render, handleRecordingToggle,
    startRecording, stopRecording.
  cbn [r_isModelLoaded r_isTTSLoaded r_isRecording]. intros H.
  apply orb_false_iff in H as [H1 H2].
  apply negb_false_iff, andb_true_iff in H1 as [L _].
  rewrite L. run.
  destruct (isRecording w); run;
    (eexists; split; [reflexivity|]); run;
    (split; [rewrite <- app_assoc; reflexivity|]);
    split; [reflexivity | exact H2 | reflexivity | exact H2].
Qed.

Lemma enabled_button_never_alerts_witness :
  exists w',
    handleRecordingToggle (render readyWorld) readyWorld = (Normal tt, w')
    /\ trace w'
       = trace readyWorld
         ++ (if isRecording readyWorld
             then [StopRecordingCalled;
                   StatusShown "Processing recording..."]
             else [StartRecordingCalled;
                   StatusShown "Listening... Click stop when done"])
    /\ messages w' = messages readyWorld /\ isProcessing w' = false.
Proof.
  apply (enabled_button_never_alerts readyWorld). reflexivity.
Defined.

(** ** Floors of the published latencies *)

(** Off line the reply block pauses 500 ms before it answers. *)
Lemma complete_offline_latency (r : Render) (text : string) (um : Message)
    (apiStartTime : Z) (w w' : World) (reply : string) (api : Z) :
  r_isOnline r = false \/ openaiClientRef w = None ->
  steady w -> apiStartTime <= clock w ->
  handleTranscript_complete r text um apiStartTime w
  = (Normal (reply, api), w') ->
  500 <= api.
Proof.
  intros H St A. unfold handleTranscript_complete. run. cbv beta.
  assert (Off : (let (c, v) := getOfflineResponse text
                                 (with_clock (clock w + 500) w) in
                 match c with
                 | Normal a =>
                     (Normal (a, clock v + ticks v 0%nat - apiStartTime),
                      with_clock (clock v + ticks v 0%nat)
                        (with_ticks (fun n => ticks v (S n)) v))
                 | Thrown e => (Thrown e, v)
                 end) = (Normal (reply, api), w') -> 500 <= api).
  { destruct (getOfflineResponse_spec text (with_clock (clock w + 500) w))
      as (reply0 & v & E & (_ & _ & O)).
    rewrite E. intros I. injection I as _ <- _.
    assert (S0 : steady (with_clock (clock w + 500) w))
      by (intro n; run; apply St).
    destruct (O S0) as [L S1]. run. pose proof (S1 0%nat). lia. }
  destruct H as [H|H].
  - rewrite H. exact Off.
  - rewrite H. destruct (r_isOnline r); exact Off.
Qed.

(** The synthesis block, when it goes through, with the latency it
    publishes. *)
Lemma speak_works_latency (r : Render) (stt t0 : Z) (reply : string)
    (api : Z) (w w' : World) :
  ttsWorks r w -> steady w ->
  handleTranscript_speak r stt t0 reply api w = (Normal tt, w') ->
  exists pm,
    performanceMetrics w' = Some pm
    /\ apiLatency pm = api /\ 500 <= ttsLatency pm.
Proof.
  intros (T & e & a & R & L & C) St.
  unfold handleTranscript_speak. run. rewrite R, T. run.
  match goal with
  | |- context [MockTTSEngine.synthesize reply ?v] =>
      destruct (synthesize_result reply v e a R L C) as (w1 & E & P1);
      set (wa := v) in *
  end.
  rewrite E. run.
  assert (R1 : ttsEngineRef w1 = Some e).
  { field P1 ttsEngineRef. subst wa. run. congruence. }
  match goal with
  | |- context [MockTTSEngine.playAudio ?b ?v] =>
      destruct (playAudio_spec b v e) as (w2 & evs & E2 & _);
      [run; exact R1 | cbn [frames]; lia | reflexivity |]
  end.
  rewrite E2. run. intros I. apply (f_equal snd) in I. cbn [snd] in I.
  subst w'. run.
  eexists. split; [reflexivity|].
  cbn [apiLatency ttsLatency]. split; [reflexivity|].
  subst wa. run.
  pose proof (random_range (randoms w 0%nat)) as K.
  pose proof (scaled_nonneg _ 1500 (proj1 K) ltac:(lia)).
  pose proof (St 2%nat). lia.
Qed.

(** A run, with the reply block and the synthesis block it went
    through. *)
Lemma handleTranscript_blocks (r : Render) (text : string) (stt : Z)
    (w : World) :
  exists um ast wa reply api wc w1 w2,
    handleTranscript_complete r text um ast wa = (Normal (reply, api), wc)
    /\ handleTranscript_speak r stt (clock w + ticks w 0%nat) reply api w1
       = (Normal tt, w2)
    /\ handleTranscript r text stt w = (Normal tt, with_isProcessing false w2)
    /\ openaiClientRef wa = openaiClientRef w
    /\ ttsEngineRef w1 = ttsEngineRef w
    /\ (steady w -> steady wa /\ ast = clock wa /\ steady w1).
Proof.
  unfold handleTranscript. run.
  match goal with
  | |- context [handleTranscript_complete r text ?um ?ast ?v] =>
      destruct (handleTranscript_complete_spec r text um ast v)
        as (reply & api & wc & evs & E & P & _);
      exists um, ast, v, reply, api, wc
  end.
  rewrite E. run.
  match goal with
  | |- context [handleTranscript_speak r stt ?t0 reply api ?v] =>
      destruct (speak_total r stt t0 reply api v) as (w2 & E2);
      exists v, w2
  end.
  rewrite E2. run.
  split; [reflexivity|]. split; [reflexivity|]. split; [reflexivity|].
  field P ttsEngineRef.
  split; [reflexivity|]. split; [assumption|].
  intros St. destruct P as (_ & _ & O). unfold onward, steady in *. run.
  assert (Sa : forall n, 0 <= ticks w (S (S (S n))))
    by (intro n; apply St).
  destruct (O Sa) as [_ Sc].
  split; [exact Sa|]. split; [reflexivity|]. intro n. apply Sc.
Qed.

(** X18: on a clock that does not run backwards, every snapshot a run
    publishes has [ttsLatency] at least 500 ms; and unless the run went to
    the remote end (the render on line and a client configured), its
    [apiLatency] is at least 500 ms as well. *)
Theorem published_latency_floors (r : Render) (text : string) (stt : Z)
    (w : World) :
  steady w -> ttsWorks r w ->
  exists pm,
    performanceMetrics (exec (handleTranscript r text stt) w) = Some pm
    /\ 500 <= ttsLatency pm
    /\ ((r_isOnline r = true /\ exists c, openaiClientRef w = Some c)
        \/ 500 <= apiLatency pm).
Proof.
  intros St (T & e & a & R & L & C).
  destruct (handleTranscript_blocks r text stt w)
    as (um & ast & wa & reply & api & wc & w1 & w2
        & E1 & E2 & E & Cl & Tr & Ts).
  destruct (Ts St) as (Sa & Ea & S1).
  assert (W : ttsWorks r w1).
  { split; [exact T|]. exists e, a. repeat split; congruence. }
  destruct (speak_works_latency r stt _ reply api w1 w2 W S1 E2)
    as (pm & PM & Ap & Tt).
  exists pm. unfold exec. rewrite E. run.
  split; [exact PM|]. split; [exact Tt|].
  assert (Off : r_isOnline r = false \/ openaiClientRef wa = None ->
                500 <= apiLatency pm).
  { intros Off. rewrite Ap.
    apply (complete_offline_latency r text um ast wa wc reply api);
      [exact Off | exact Sa | lia | exact E1]. }
  destruct (r_isOnline r) eqn:On; [|right; apply Off; left; reflexivity].
  destruct (openaiClientRef w) as [c|] eqn:Oc.
  - left. split; [reflexivity | eauto].
  - right. apply Off. right. congruence.
Qed.

Lemma published_latency_floors_witness :
  exists pm,
    performanceMetrics
      (exec (handleTranscript offlineRender "What time is it?" 1200)
         scenarioWorld) = Some pm
    /\ 500 <= ttsLatency pm
    /\ ((r_isOnline offlineRender = true
         /\ exists c, openaiClientRef scenarioWorld = Some c)
        \/ 500 <= apiLatency pm).
Proof.
  apply (published_latency_floors offlineRender "What time is it?" 1200
           scenarioWorld).
  - exact scenarioWorld_steady.
  - split; [reflexivity|]. do 2 eexists. repeat split; reflexivity.
Defined.
